(** * Garuda bootstrap layer ([main.py]): configuration reconciliation,
      validation and session bootstrap

    The entry point [main] of the toolkit merges an optional YAML document
    with the parsed command line into one [argparse.Namespace], validates
    it and hands it to the execution engine.  This file embeds that
    control flow and proves the properties the specification states about
    it.

    Python objects are embedded as the inductive type [value]; the
    namespace [final_args] is a finite map from attribute names to values,
    with the three names that [setattr] treats apart ([__dict__],
    [__class__], [__weakref__]) handled as the interpreter does;
    the effects of [main] (printing, [sys.exit], uncaught exceptions, the
    local [final_args], the engine call) are threaded through a small
    state-and-exit monad.  The collaborators that [main] only calls (the
    file system, the YAML loader, [urllib.parse] and [GarudaEngine]) are
    the fields of a record [World]. *)

From Stdlib Require Import ZArith String Ascii List Lia.
From stdpp Require Import gmap strings list fin_maps.

Local Open Scope string_scope.

(** ** Python values *)

(** The values that reach [main]: what [argparse] stores in its namespace
    and the JSON-like part of what [yaml.safe_load] returns (null,
    booleans, integers, strings, sequences and mappings; a mapping is the
    list of its items in iteration order).  The other values that
    [yaml.safe_load] can build (floats, byte strings, dates and sets) are
    not embedded, and a document is a tree: no node of it is shared
    through an anchor and an alias.  Every statement below about "the
    file" is about documents made of these values. *)
#[warnings="-register-all"]
Inductive value : Type :=
| VNone
| VBool (b : bool)
| VInt (z : Z)
| VStr (s : string)
| VList (l : list value)
| VDict (items : list (value * value)).

(** [bool(v)]: the truth value Python gives to [v] in [if v], [not v],
    [v or w] and [v and w]. *)
Definition truthy (v : value) : bool :=
  match v with
  | VNone => false
  | VBool b => b
  | VInt z => negb (z =? 0)%Z
  | VStr s => negb (String.eqb s "")
  | VList l => match l with [] => false | _ :: _ => true end
  | VDict d => match d with [] => false | _ :: _ => true end
  end.

(** [v is None] and [v is False]: identity with the two singletons. *)
Definition is_None (v : value) : bool :=
  match v with VNone => true | _ => false end.

Definition is_False (v : value) : bool :=
  match v with VBool false => true | _ => false end.

(** [v == s] for a string [s]: only an equal string compares equal. *)
Definition py_eq_str (v : value) (s : string) : bool :=
  match v with VStr x => String.eqb x s | _ => false end.

(** [v == z] for an integer [z]: [bool] is a subclass of [int], so
    [False == 0] and [True == 1]. *)
Definition py_eq_int (v : value) (z : Z) : bool :=
  match v with
  | VInt x => (x =? z)%Z
  | VBool b => (Z.b2z b =? z)%Z
  | _ => false
  end.

(** [v != h] where [h] is the [hostname] property of a parse result,
    that is [None] or a string. *)
Definition py_ne_hostname (v : value) (h : option string) : bool :=
  match h with
  | Some s => negb (py_eq_str v s)
  | None => negb (is_None v)
  end.

(** [a or b]. *)
Definition py_or (a b : value) : value := if truthy a then a else b.

(** ** The namespace *)

(** An [argparse.Namespace] is a bag of attributes. *)
Abbreviation namespace := (gmap string value).

Definition setattr (ns : namespace) (key : string) (v : value) : namespace :=
  <[key := v]> ns.

Definition getattr (ns : namespace) (key : string) (dflt : value) : value :=
  default dflt (ns !! key).

Definition hasattr (ns : namespace) (key : string) : bool :=
  match ns !! key with Some _ => true | None => false end.

(** ** The parsed command line *)

Inductive Method := HttpFlood | Slowloris | Mixed.

Inductive AttackKind := AttackHttpFlood | AttackSlowloris.

Definition method_name (m : Method) : string :=
  match m with
  | HttpFlood => "http-flood"
  | Slowloris => "slowloris"
  | Mixed => "mixed"
  end.

Definition attack_name (a : AttackKind) : string :=
  match a with
  | AttackHttpFlood => "http-flood"
  | AttackSlowloris => "slowloris"
  end.

(** What [create_argument_parser().parse_args()] returns when it returns:
    one attribute per [add_argument], [None] for an option that was not
    passed, and [False] for the [store_true] flag
    [--stealth] that was not passed.  [--attacks] has [nargs='+'], so a
    list that is present has at least one element. *)
Record RawArguments := {
  target : option string;
  method : option Method;
  config : option string;
  attacks : option (AttackKind * list AttackKind);
  connections : option Z;
  duration : option Z;
  confirm_target : option string;
  stealth : bool
}.

Definition opt_value {A} (f : A -> value) (o : option A) : value :=
  match o with Some a => f a | None => VNone end.

Definition attacks_value (p : AttackKind * list AttackKind) : value :=
  VList (map (fun a => VStr (attack_name a)) (fst p :: snd p)).

(** [vars(args).items()], in the order in which the parser declares its
    arguments. *)
Definition vars (args : RawArguments) : list (string * value) :=
  [ ("target", opt_value VStr (target args));
    ("method", opt_value (fun m => VStr (method_name m)) (method args));
    ("config", opt_value VStr (config args));
    ("attacks", opt_value attacks_value (attacks args));
    ("connections", opt_value VInt (connections args));
    ("duration", opt_value VInt (duration args));
    ("confirm_target", opt_value VStr (confirm_target args));
    ("stealth", VBool (stealth args)) ].

(** ** Effects *)

Inductive exn :=
| AttributeError
| TypeError
| ValueError
| LoadError
| EngineBaseException.

(** The two complaints [main] passes to [parser.error]. *)
Inductive usage_complaint :=
| MissingRequiredArgument
| InvalidAttackCombination.

(** What [main] writes, one constructor per [print] (the banner of
    [display_disclaimer] counts as one), plus what the interpreter
    writes for it: the usage text of [parser.error], the traceback of an
    uncaught exception and the text of a [SystemExit] whose argument is
    neither an integer nor [None]. *)
Inductive message :=
| MsgDisclaimer
| MsgConfigNotFound (path : string)
| MsgUsage (c : usage_complaint)
| MsgConfirmMismatch (confirm : value) (domain : option string)
| MsgSuccess
| MsgUnexpected (e : string)
| MsgTraceback (e : exn)
| MsgExitObject (text : string).



(** The state of the running process that the claims observe: what has
    been printed so far, the local variable [final_args] (unbound until
    [argparse.Namespace()] is evaluated) and the argument of the
    [GarudaEngine] constructor once it has been called. *)
Record process := {
  output : list message;
  final_args : option namespace;
  engine_input : option namespace
}.

Definition initial : process :=
  {| output := []; final_args := None; engine_input := None |}.

Inductive result (A : Type) :=
| Ret (a : A)
| Exit (code : Z)
| Raise (e : exn).
Arguments Ret {A} a.
Arguments Exit {A} code.
Arguments Raise {A} e.

Definition M (A : Type) : Type := process -> result A * process.

#[global] Instance M_ret : MRet M := fun A a s => (Ret a, s).

#[global] Instance M_bind : MBind M := fun A B f m s =>
  match m s with
  | (Ret a, s') => f a s'
  | (Exit c, s') => (Exit c, s')
  | (Raise e, s') => (Raise e, s')
  end.

Definition print (m : message) : M unit := fun s =>
  (Ret tt, {| output := output s ++ [m];
              final_args := final_args s;
              engine_input := engine_input s |}).

Definition sys_exit {A} (code : Z) : M A := fun s => (Exit code, s).

Definition raise {A} (e : exn) : M A := fun s => (Raise e, s).

(** The argument of a [SystemExit]: an integer status, [None], or any
    other object, which the interpreter prints. *)
Inductive exit_payload :=
| ExitStatus (n : Z)
| ExitNone
| ExitObject (text : string).

(** A [SystemExit] that nothing catches: the status is the integer, 0
    for [None], and 1 for any other object, whose text the interpreter
    writes to standard error. *)
Definition system_exit {A} (p : exit_payload) : M A :=
  match p with
  | ExitStatus n => sys_exit n
  | ExitNone => sys_exit 0
  | ExitObject text => print (MsgExitObject text) ;; sys_exit 1
  end.

(** [parser.error(message)] prints the usage text with the message on
    standard error and exits with status 2. *)
Definition parser_error {A} (c : usage_complaint) : M A :=
  print (MsgUsage c) ;; sys_exit 2.

(** Assignment to, and reading of, the local [final_args]. *)
Definition set_final_args (ns : namespace) : M unit := fun s =>
  (Ret tt, {| output := output s;
              final_args := Some ns;
              engine_input := engine_input s |}).

Definition get_final_args : M namespace := fun s =>
  match final_args s with
  | Some ns => (Ret ns, s)
  | None => (Raise AttributeError, s)
  end.

(** Records that [GarudaEngine(ns)] is being evaluated. *)
Definition set_engine_input (ns : namespace) : M unit := fun s =>
  (Ret tt, {| output := output s;
              final_args := final_args s;
              engine_input := Some ns |}).

(** The three names under which an [argparse.Namespace] does not store
    an attribute: [object] keeps them for the instance's dictionary,
    class and weak references. *)
Definition special_attribute (k : string) : bool :=
  String.eqb k "__dict__"
  || String.eqb k "__class__"
  || String.eqb k "__weakref__".

(** The attributes, by name, of an instance whose [__dict__] is the
    mapping with the given items. *)
Definition attributes_of (items : list (value * value)) : namespace :=
  fold_left
    (fun acc kv =>
       match fst kv with VStr k => setattr acc k (snd kv) | _ => acc end)
    items ∅.

(** [setattr(final_args, key, value)].  Attribute names must be strings.
    Assigning [__dict__] replaces every attribute by the items of the
    mapping assigned, and anything but a mapping is refused; [__class__]
    takes only a class, which no value here is; [__weakref__] cannot be
    written.  Every other name is stored. *)
Definition setattr_final (key : value) (v : value) : M unit :=
  match key with
  | VStr k =>
      if String.eqb k "__dict__" then
        match v with
        | VDict items =>
            get_final_args ;; set_final_args (attributes_of items)
        | _ => raise TypeError
        end
      else if String.eqb k "__class__" then raise TypeError
      else if String.eqb k "__weakref__" then raise AttributeError
      else ns ← get_final_args; set_final_args (setattr ns k v)
  | _ => raise TypeError
  end.

(** [final_args.key]: raises when the attribute does not exist. *)
Definition attr_final (key : string) : M value :=
  ns ← get_final_args;
  match ns !! key with
  | Some v => mret v
  | None => raise AttributeError
  end.

Definition getattr_final (key : string) (dflt : value) : M value :=
  ns ← get_final_args; mret (getattr ns key dflt).

Definition hasattr_final (key : string) : M bool :=
  ns ← get_final_args; mret (hasattr ns key).

(** [for x in xs: body(x)]. *)
Fixpoint for_each {A} (xs : list A) (body : A -> M unit) : M unit :=
  match xs with
  | [] => mret tt
  | x :: xs' => body x ;; for_each xs' body
  end.

(** [d.items()]: only a mapping has items. *)
Definition items_of (d : value) : M (list (value * value)) :=
  match d with
  | VDict items => mret items
  | _ => raise AttributeError
  end.

(** ** The collaborators *)

Inductive load_result :=
| LoadRaises
| Loaded (doc : value).

Inductive url_result :=
| UrlRaises
| UrlHost (h : option string).

(** How [GarudaEngine(final_args)] and [engine.start()] end: by
    returning, or by raising [KeyboardInterrupt], an [Exception] (with
    its text), [SystemExit], or some other [BaseException]. *)
Inductive engine_outcome :=
| EngineReturns
| EngineKeyboardInterrupt
| EngineRaises (e : string)
| EngineSystemExit (p : exit_payload)
| EngineRaisesBase.

Record World := {
  (** [os.path.exists] *)
  os_path_exists : string -> bool;
  (** [open(path, 'r')] followed by [yaml.safe_load] *)
  yaml_safe_load : string -> load_result;
  (** [urlparse(url).hostname] on a string *)
  urlparse_hostname : string -> url_result;
  (** [GarudaEngine(final_args)] followed by [engine.start()] *)
  engine_run : namespace -> engine_outcome
}.

(** ** [main] *)

Definition display_disclaimer : M unit := print MsgDisclaimer.

Section Main.
Context (w : World).

(** Lines 75-81. *)
Definition load_config_from_file (args : RawArguments) : M value :=
  match config args with
  | Some path =>
      if truthy (VStr path) then
        if negb (os_path_exists w path) then
          print (MsgConfigNotFound path) ;; sys_exit 1
        else
          match yaml_safe_load w path with
          | LoadRaises => raise LoadError
          | Loaded doc => mret (py_or doc (VDict []))
          end
      else mret (VDict [])
  | None => mret (VDict [])
  end.

(** Lines 85-86. *)
Definition copy_file_config (config_from_file : value) : M unit :=
  its ← items_of config_from_file;
  for_each its (fun kv => setattr_final (fst kv) (snd kv)).

(** Lines 88-90. *)
Definition overlay_arguments (args : RawArguments) : M unit :=
  for_each (vars args) (fun kv =>
    if negb (is_None (snd kv)) && negb (is_False (snd kv))
    then setattr_final (VStr (fst kv)) (snd kv)
    else mret tt).

(** Lines 83-90: the reconciliation of the two sources. *)
Definition reconcile (config_from_file : value) (args : RawArguments)
  : M unit :=
  set_final_args ∅ ;;
  copy_file_config config_from_file ;;
  overlay_arguments args.

(** Lines 92-96. *)
Definition check_required : M unit :=
  t ← getattr_final "target" VNone;
  m ← getattr_final "method" VNone;
  (if negb (truthy t) || negb (truthy m)
   then parser_error MissingRequiredArgument
   else mret tt) ;;
  m ← attr_final "method";
  a ← getattr_final "attacks" VNone;
  if py_eq_str m "mixed" && negb (truthy a)
  then parser_error InvalidAttackCombination
  else mret tt.

(** Lines 98-100. *)
Definition default_attr (key : string) (v : value) : M unit :=
  h ← hasattr_final key;
  if negb h then setattr_final (VStr key) v else mret tt.

Definition apply_defaults : M unit :=
  default_attr "connections" (VInt 100) ;;
  default_attr "duration" (VInt 60) ;;
  default_attr "stealth" (VBool false).

(** Line 102: [urlparse] decodes an argument that is not a string, and
    of the values here only strings and bytes can be decoded. *)
Definition target_hostname : M (option string) :=
  t ← attr_final "target";
  match t with
  | VStr url =>
      match urlparse_hostname w url with
      | UrlRaises => raise ValueError
      | UrlHost h => mret h
      end
  | _ => raise AttributeError
  end.

(** Lines 103-105. *)
Definition check_confirm_target (target_domain : option string) : M unit :=
  c ← getattr_final "confirm_target" VNone;
  if truthy c then
    c' ← attr_final "confirm_target";
    if py_ne_hostname c' target_domain then
      print (MsgConfirmMismatch c' target_domain) ;; sys_exit 1
    else mret tt
  else mret tt.

(** Lines 107-115.  [KeyboardInterrupt] and [Exception] are caught;
    [SystemExit] and every other [BaseException] leave [main]. *)
Definition run_engine : M unit :=
  ns ← get_final_args;
  set_engine_input ns ;;
  match engine_run w ns with
  | EngineReturns => print MsgSuccess
  | EngineKeyboardInterrupt => mret tt
  | EngineRaises e => print (MsgUnexpected e) ;; sys_exit 1
  | EngineSystemExit p => system_exit p
  | EngineRaisesBase => raise EngineBaseException
  end.

Definition main (args : RawArguments) : M unit :=
  display_disclaimer ;;
  config_from_file ← load_config_from_file args;
  reconcile config_from_file args ;;
  check_required ;;
  apply_defaults ;;
  target_domain ← target_hostname;
  check_confirm_target target_domain ;;
  run_engine.

(** The process as its caller sees it: the exit status and the final
    state.  Returning from [main] is status 0, [sys.exit(n)] is status
    [n], an uncaught exception prints a traceback and is status 1.  The
    status is the integer the interpreter is asked to exit with; for
    the statuses that [main] itself asks for (0, 1 and 2) it is the
    exit code of the process. *)
Definition run (args : RawArguments) : Z * process :=
  match main args initial with
  | (Ret _, s) => (0%Z, s)
  | (Exit c, s) => (c, s)
  | (Raise e, s) =>
      (1%Z, {| output := output s ++ [MsgTraceback e];
               final_args := final_args s;
               engine_input := engine_input s |})
  end.
End Main.

(** ** [urlparse(url).hostname]

    A model of the string path of CPython's [urllib.parse] (3.11):
    [urlsplit] up to the network location, then the [_hostinfo] and
    [hostname] properties.  Strings are read as ASCII text.  The checks
    that only concern a bracketed address literal or a non-ASCII network
    location ([_check_bracketed_host], [_checknetloc]) are left out, so
    the model speaks for URLs whose authority has neither. *)
Module UrlParse.

Definition code (a : ascii) : N := N_of_ascii a.

(** [_WHATWG_C0_CONTROL_OR_SPACE] *)
Definition is_c0_or_space (a : ascii) : bool := (code a <=? 32)%N.

(** [_UNSAFE_URL_BYTES_TO_REMOVE]: tab, line feed, carriage return *)
Definition is_unsafe (a : ascii) : bool :=
  (code a =? 9)%N || (code a =? 10)%N || (code a =? 13)%N.

Definition is_upper (a : ascii) : bool :=
  (65 <=? code a)%N && (code a <=? 90)%N.

Definition is_lower (a : ascii) : bool :=
  (97 <=? code a)%N && (code a <=? 122)%N.

Definition is_digit (a : ascii) : bool :=
  (48 <=? code a)%N && (code a <=? 57)%N.

Definition is_alpha (a : ascii) : bool := is_upper a || is_lower a.

(** [scheme_chars]: letters, digits, [+], [-] and [.] *)
Definition is_scheme_char (a : ascii) : bool :=
  is_alpha a || is_digit a
  || (code a =? 43)%N || (code a =? 45)%N || (code a =? 46)%N.

Definition lower_char (a : ascii) : ascii :=
  if is_upper a then ascii_of_N (code a + 32) else a.

(** [s.lower()] *)
Fixpoint lower (s : string) : string :=
  match s with
  | EmptyString => EmptyString
  | String a r => String (lower_char a) (lower r)
  end.

(** [s.lstrip(_WHATWG_C0_CONTROL_OR_SPACE)] *)
Fixpoint lstrip (s : string) : string :=
  match s with
  | EmptyString => EmptyString
  | String a r => if is_c0_or_space a then lstrip r else s
  end.

(** [s.replace(b, "")] for each unsafe [b] *)
Fixpoint remove_unsafe (s : string) : string :=
  match s with
  | EmptyString => EmptyString
  | String a r =>
      if is_unsafe a then remove_unsafe r else String a (remove_unsafe r)
  end.

Fixpoint all_chars (p : ascii -> bool) (s : string) : bool :=
  match s with
  | EmptyString => true
  | String a r => p a && all_chars p r
  end.

(** [c in s] *)
Fixpoint contains (c : ascii) (s : string) : bool :=
  match s with
  | EmptyString => false
  | String a r => Ascii.eqb a c || contains c r
  end.

(** [s.partition(c)]: the text before the first [c], whether there is
    one, and the text after it. *)
Fixpoint partition (c : ascii) (s : string) : string * bool * string :=
  match s with
  | EmptyString => (EmptyString, false, EmptyString)
  | String a r =>
      if Ascii.eqb a c then (EmptyString, true, r)
      else let '(h, found, t) := partition c r in (String a h, found, t)
  end.

(** The text after the last [c], if there is a [c]. *)
Fixpoint after_last (c : ascii) (s : string) : option string :=
  match s with
  | EmptyString => None
  | String a r =>
      match after_last c r with
      | Some t => Some t
      | None => if Ascii.eqb a c then Some r else None
      end
  end.

(** [s.rpartition(c)[2]] *)
Definition rpartition_tail (c : ascii) (s : string) : string :=
  default s (after_last c s).

(** The first branch of [urlsplit]: drop a leading [scheme:]. *)
Definition strip_scheme (url : string) : string :=
  match partition ":" url with
  | (String a r as head, true, rest) =>
      if is_alpha a && all_chars is_scheme_char head then rest else url
  | _ => url
  end.

(** [_splitnetloc(url, 2)[0]] for a [url] that starts with two
    slashes, given without them: everything before the first of
    [/], [?] and [#]. *)
Fixpoint until_delim (s : string) : string :=
  match s with
  | EmptyString => EmptyString
  | String a r =>
      if Ascii.eqb a "/" || Ascii.eqb a "?" || Ascii.eqb a "#"
      then EmptyString
      else String a (until_delim r)
  end.

(** The [netloc] field of [urlsplit(url)], or nothing where [urlsplit]
    raises [ValueError("Invalid IPv6 URL")]. *)
Definition netloc (url : string) : option string :=
  let url := remove_unsafe (lstrip url) in
  let url := strip_scheme url in
  match url with
  | String "/" (String "/" rest) =>
      let n := until_delim rest in
      if xorb (contains "[" n) (contains "]" n) then None else Some n
  | _ => Some EmptyString
  end.

(** [_hostinfo[0]]: the host as it is written in the URL. *)
Definition hostinfo_host (netloc : string) : string :=
  let hostinfo := rpartition_tail "@" netloc in
  match partition "[" hostinfo with
  | (_, true, bracketed) => fst (fst (partition "]" bracketed))
  | (_, false, _) => fst (fst (partition ":" hostinfo))
  end.

(** The [hostname] property: [None] for an empty host, otherwise the
    host in lower case, a zone suffix after [%] kept as written. *)
Definition hostname_of_netloc (netloc : string) : option string :=
  match hostinfo_host netloc with
  | EmptyString => None
  | host =>
      let '(h, percent, zone) := partition "%" host in
      Some (lower h ++ (if percent then "%" else "") ++ zone)
  end.

(** The host of [url] as written, before [hostname] lowers it. *)
Definition written_host (url : string) : option string :=
  match netloc url with
  | Some n => Some (hostinfo_host n)
  | None => None
  end.

Definition hostname (url : string) : url_result :=
  match netloc url with
  | Some n => UrlHost (hostname_of_netloc n)
  | None => UrlRaises
  end.

End UrlParse.

(** ** Closed forms

    The definitions below do not come from [main.py]: they name the
    states and outcomes that the blocks of [main] produce, so that the
    lemmas further down can say what each block computes. *)

(** The state [s] after [final_args] has been assigned [ns]. *)
Definition with_final_args (ns : namespace) (s : process) : process :=
  {| output := output s; final_args := Some ns;
     engine_input := engine_input s |}.

(** The state [s] after the messages [ms] have been printed. *)
Definition with_output (ms : list message) (s : process) : process :=
  {| output := output s ++ ms; final_args := final_args s;
     engine_input := engine_input s |}.

(** The state [s] after [GarudaEngine(ns)] has been evaluated. *)
Definition with_engine_input (ns : namespace) (s : process) : process :=
  {| output := output s; final_args := final_args s;
     engine_input := Some ns |}.

(** The state in which [parse_args] returns: the banner is out. *)
Definition after_banner : process := with_output [MsgDisclaimer] initial.

Definition is_str (v : value) : bool :=
  match v with VStr _ => true | _ => false end.

(** A key that [setattr] stores as an attribute: a string other than
    the three special names. *)
Definition plain_key (v : value) : bool :=
  match v with VStr k => negb (special_attribute k) | _ => false end.

Definition plain_keys (its : list (value * value)) : Prop :=
  Forall (fun kv => plain_key (fst kv) = true) its.

(** The file mapping has plain keys, each once: what a YAML mapping of
    settings loads as. *)
Definition string_keyed (its : list (value * value)) : Prop :=
  plain_keys its /\ NoDup (its.*1).

(** What the loop of lines 85-86 makes of [ns] when every key is
    plain. *)
Definition file_layer (its : list (value * value)) (ns : namespace)
  : namespace :=
  fold_left
    (fun acc kv =>
       match fst kv with VStr k => setattr acc k (snd kv) | _ => acc end)
    its ns.

(** The test of line 89. *)
Definition overrides (v : value) : bool :=
  negb (is_None v) && negb (is_False v).

(** What the loop of lines 88-90 makes of [ns]. *)
Definition cli_layer (l : list (string * value)) (ns : namespace)
  : namespace :=
  fold_left
    (fun acc kv =>
       if overrides (snd kv) then setattr acc (fst kv) (snd kv) else acc)
    l ns.

(** The outcome of lines 92-96 on a namespace. *)
Definition required_verdict (ns : namespace) : option usage_complaint :=
  if negb (truthy (getattr ns "target" VNone))
     || negb (truthy (getattr ns "method" VNone))
  then Some MissingRequiredArgument
  else if py_eq_str (getattr ns "method" VNone) "mixed"
          && negb (truthy (getattr ns "attacks" VNone))
  then Some InvalidAttackCombination
  else None.

(** The outcome of one of the lines 98-100 on a namespace. *)
Definition default_of (key : string) (v : value) (ns : namespace)
  : namespace :=
  if hasattr ns key then ns else setattr ns key v.

(** The outcome of lines 98-100 on a namespace. *)
Definition defaulted (ns : namespace) : namespace :=
  default_of "stealth" (VBool false)
    (default_of "duration" (VInt 60)
       (default_of "connections" (VInt 100) ns)).

(** How the process ends once the engine has ended, from the state [s]
    in which the engine was built. *)
Definition engine_ending (o : engine_outcome) (s : process)
  : result unit * process :=
  match o with
  | EngineReturns => (Ret tt, with_output [MsgSuccess] s)
  | EngineKeyboardInterrupt => (Ret tt, s)
  | EngineRaises e => (Exit 1, with_output [MsgUnexpected e] s)
  | EngineSystemExit (ExitStatus n) => (Exit n, s)
  | EngineSystemExit ExitNone => (Exit 0, s)
  | EngineSystemExit (ExitObject text) =>
      (Exit 1, with_output [MsgExitObject text] s)
  | EngineRaisesBase => (Raise EngineBaseException, s)
  end.

Section Outcome.
Context (w : World).

(** [merged args ns]: the process gets through line 90 and [final_args]
    is then [ns]. *)
Definition merged (args : RawArguments) (ns : namespace) : Prop :=
  exists config_from_file,
    load_config_from_file w args after_banner
      = (Ret config_from_file, after_banner)
    /\ reconcile config_from_file args after_banner
      = (Ret tt, with_final_args ns after_banner).

(** What lines 102-115 do once the required arguments are there. *)
Definition bootstrap (ns : namespace) (s : process)
  : result unit * process :=
  match ns !! "target" with
  | Some (VStr url) =>
      match urlparse_hostname w url with
      | UrlRaises => (Raise ValueError, s)
      | UrlHost h =>
          let c := getattr ns "confirm_target" VNone in
          if truthy c && py_ne_hostname c h
          then (Exit 1, with_output [MsgConfirmMismatch c h] s)
          else
            engine_ending (engine_run w ns) (with_engine_input ns s)
      end
  | _ => (Raise AttributeError, s)
  end.

End Outcome.

(** A computation is silent when it does not touch [engine_input] and,
    if it returns, has printed nothing. *)
Definition silent {A} (m : M A) : Prop :=
  forall s,
    engine_input (snd (m s)) = engine_input s
    /\ (forall a, fst (m s) = Ret a -> output (snd (m s)) = output s).

(** A computation ends cleanly on interruption when, started before the
    engine has been built, it can only end with an interrupted engine
    by returning without having printed anything. *)
Definition clean_on_interrupt (w : World) (m : M unit) : Prop :=
  forall s ns,
    engine_input s = None ->
    engine_input (snd (m s)) = Some ns ->
    engine_run w ns = EngineKeyboardInterrupt ->
    fst (m s) = Ret tt /\ output (snd (m s)) = output s.



(** ** The declarations of [create_argument_parser]

    The arguments in the order of the [add_argument] calls, with what
    [argparse] needs to name the attribute of each: the option strings
    (for a positional, its name). *)
Inductive argument_kind :=
| Positional
| Optional.

Record argument := {
  arg_kind : argument_kind;
  option_strings : list string
}.

Definition create_argument_parser : list argument :=
  [ {| arg_kind := Positional; option_strings := ["target"] |};
    {| arg_kind := Optional; option_strings := ["-m"; "--method"] |};
    {| arg_kind := Optional; option_strings := ["--config"] |};
    {| arg_kind := Optional; option_strings := ["--attacks"] |};
    {| arg_kind := Optional; option_strings := ["-c"; "--connections"] |};
    {| arg_kind := Optional; option_strings := ["-d"; "--duration"] |};
    {| arg_kind := Optional; option_strings := ["--confirm-target"] |};
    {| arg_kind := Optional; option_strings := ["--stealth"] |} ].

(** [s.lstrip('-')] *)
Fixpoint lstrip_dashes (s : string) : string :=
  match s with
  | String "-" r => lstrip_dashes r
  | _ => s
  end.

(** [s.replace('-', '_')] *)
Fixpoint dashes_to_underscores (s : string) : string :=
  match s with
  | EmptyString => EmptyString
  | String a r =>
      String (if Ascii.eqb a "-" then "_"%char else a)
        (dashes_to_underscores r)
  end.

Definition is_long_option (s : string) : bool :=
  match s with
  | String "-" (String "-" _) => true
  | _ => false
  end.

(** The attribute name [argparse] derives: a positional keeps its name;
    an optional takes its first long option string, or else its first
    option string, without the leading dashes and with the other dashes
    turned into underscores. *)
Definition dest (a : argument) : string :=
  match arg_kind a with
  | Positional => default "" (head (option_strings a))
  | Optional =>
      let chosen :=
        match List.filter is_long_option (option_strings a) with
        | long :: _ => long
        | [] => default "" (head (option_strings a))
        end in
      dashes_to_underscores (lstrip_dashes chosen)
  end.

(** ** Sample inputs *)

(** A world with no files, the CPython URL parser and an engine with a
    fixed outcome. *)
Definition bare_world (eng : engine_outcome) : World :=
  {| os_path_exists := fun _ => false;
     yaml_safe_load := fun _ => LoadRaises;
     urlparse_hostname := UrlParse.hostname;
     engine_run := fun _ => eng |}.

(** A world whose only file is [path], which loads as [doc]. *)
Definition file_world (path : string) (doc : value) (eng : engine_outcome)
  : World :=
  {| os_path_exists := fun p => String.eqb p path;
     yaml_safe_load := fun p =>
       if String.eqb p path then Loaded doc else LoadRaises;
     urlparse_hostname := UrlParse.hostname;
     engine_run := fun _ => eng |}.

(** [python main.py] with no arguments at all. *)
Definition no_arguments : RawArguments :=
  {| target := None; method := None; config := None; attacks := None;
     connections := None; duration := None; confirm_target := None;
     stealth := false |}.

(** [python main.py URL -m METHOD] *)
Definition cli (url : string) (m : Method) : RawArguments :=
  {| target := Some url; method := Some m; config := None; attacks := None;
     connections := None; duration := None; confirm_target := None;
     stealth := false |}.

(** [python main.py URL -m METHOD --confirm-target C] *)
Definition cli_confirm (url : string) (m : Method) (c : string)
  : RawArguments :=
  {| target := Some url; method := Some m; config := None; attacks := None;
     connections := None; duration := None; confirm_target := Some c;
     stealth := false |}.

(** [python main.py --config PATH] *)
Definition cli_config (path : string) : RawArguments :=
  {| target := None; method := None; config := Some path; attacks := None;
     connections := None; duration := None; confirm_target := None;
     stealth := false |}.

(** [python main.py http://good.com -m http-flood --config ""] *)
Definition cli_empty_config : RawArguments :=
  {| target := Some "http://good.com"; method := Some HttpFlood;
     config := Some ""; attacks := None; connections := None;
     duration := None; confirm_target := None; stealth := false |}.


(** [python main.py http://good.com/path --confirm-target evil.com] *)
Definition cli_confirm_no_method : RawArguments :=
  {| target := Some "http://good.com/path"; method := None; config := None;
     attacks := None; connections := None; duration := None;
     confirm_target := Some "evil.com"; stealth := false |}.

(** * Properties *)

(** ** The URL model on sample URLs *)

Example hostname_plain :
  UrlParse.hostname "http://good.com/path?x=1#top" = UrlHost (Some "good.com").
Proof. reflexivity. Qed.

Example hostname_port_user :
  UrlParse.hostname "https://User:pw@Example.COM:8443/a"
  = UrlHost (Some "example.com").
Proof. reflexivity. Qed.

Example hostname_no_authority :
  UrlParse.hostname "good.com/path" = UrlHost None.
Proof. reflexivity. Qed.

Example hostname_ipv6_zone :
  UrlParse.hostname "http://[FE80::1%tESt]:1234/keys"
  = UrlHost (Some "fe80::1%tESt").
Proof. reflexivity. Qed.

Example hostname_unbalanced :
  UrlParse.hostname "http://[::1/" = UrlRaises.
Proof. reflexivity. Qed.


(** The hostname that [urlparse] returns is the written host in lower
    case (when the host has no zone suffix), and has no capital letter
    left in it. *)
Lemma partition_absent c s :
  UrlParse.contains c s = false ->
  UrlParse.partition c s = (s, false, EmptyString).
Proof.
  induction s as [|a r IH]; simpl; [reflexivity|].
  destruct (Ascii.eqb a c); simpl; [discriminate|].
  intros H. rewrite (IH H). reflexivity.
Qed.

Lemma append_empty (s : string) : s ++ "" = s.
Proof.
  induction s as [|a r IH]; [reflexivity|].
  change (String a (r ++ "") = String a r). f_equal. exact IH.
Qed.

Lemma hostname_is_lowered (n : string) :
  UrlParse.hostinfo_host n <> "" ->
  UrlParse.contains "%" (UrlParse.hostinfo_host n) = false ->
  UrlParse.hostname_of_netloc n
  = Some (UrlParse.lower (UrlParse.hostinfo_host n)).
Proof.
  intros Hne Hz. unfold UrlParse.hostname_of_netloc.
  destruct (UrlParse.hostinfo_host n) as [|a r] eqn:E; [contradiction|].
  rewrite (partition_absent _ _ Hz).
  change ("" ++ "") with "". rewrite append_empty. reflexivity.
Qed.

Lemma lower_char_not_upper (a : ascii) :
  UrlParse.is_upper (UrlParse.lower_char a) = false.
Proof. destruct a as [[] [] [] [] [] [] [] []]; reflexivity. Qed.

Lemma lower_has_no_capital (s : string) :
  UrlParse.all_chars (fun a => negb (UrlParse.is_upper a)) (UrlParse.lower s)
  = true.
Proof.
  induction s as [|a r IH]; simpl; [reflexivity|].
  rewrite lower_char_not_upper, IH. reflexivity.
Qed.

(** ** Running the monad *)

Lemma bind_run {A B} (m : M A) (f : A -> M B) (s : process) :
  (m ≫= f) s =
  match m s with
  | (Ret a, s') => f a s'
  | (Exit c, s') => (Exit c, s')
  | (Raise e, s') => (Raise e, s')
  end.
Proof. reflexivity. Qed.

Lemma bind_ret_run {A B} (m : M A) (f : A -> M B) s a s' :
  m s = (Ret a, s') -> (m ≫= f) s = f a s'.
Proof. intros H. rewrite bind_run, H. reflexivity. Qed.

(** Runs the first computation of a bind whose result [H] gives. *)
Ltac step H := rewrite (bind_ret_run _ _ _ _ _ H).

Lemma with_final_args_twice ns ns' s :
  with_final_args ns' (with_final_args ns s) = with_final_args ns' s.
Proof. reflexivity. Qed.

Lemma with_final_args_same ns s :
  final_args s = Some ns -> with_final_args ns s = s.
Proof. destruct s; simpl; intros ->; reflexivity. Qed.

Lemma get_final_args_run ns s :
  final_args s = Some ns -> get_final_args s = (Ret ns, s).
Proof. unfold get_final_args. intros ->. reflexivity. Qed.

Lemma special_attribute_false k :
  special_attribute k = false ->
  String.eqb k "__dict__" = false
  /\ String.eqb k "__class__" = false
  /\ String.eqb k "__weakref__" = false.
Proof.
  unfold special_attribute. intros H.
  apply orb_false_elim in H as [H H3].
  apply orb_false_elim in H as [H1 H2]. auto.
Qed.

Lemma setattr_final_run k v ns s :
  final_args s = Some ns ->
  special_attribute k = false ->
  setattr_final (VStr k) v s = (Ret tt, with_final_args (setattr ns k v) s).
Proof.
  intros H Hk. unfold setattr_final.
  destruct (special_attribute_false k Hk) as (-> & -> & ->).
  rewrite (bind_ret_run _ _ _ _ _ (get_final_args_run _ _ H)).
  reflexivity.
Qed.

Lemma plain_key_inv k :
  plain_key k = true ->
  exists key, k = VStr key /\ special_attribute key = false.
Proof.
  destruct k as [| | |key| |]; simpl; try discriminate.
  intros H. exists key. split; [reflexivity|].
  apply negb_true_iff. exact H.
Qed.

Lemma plain_keys_str its :
  plain_keys its -> Forall (fun kv => is_str (fst kv) = true) its.
Proof.
  intros H. induction H as [|[k v] its Hk _ IH]; constructor; [|exact IH].
  destruct (plain_key_inv k Hk) as (key & -> & _). reflexivity.
Qed.

(** ** The two loops in closed form *)

Lemma copy_loop_run its : forall ns s,
  final_args s = Some ns ->
  plain_keys its ->
  for_each its (fun kv => setattr_final (fst kv) (snd kv)) s
  = (Ret tt, with_final_args (file_layer its ns) s).
Proof.
  induction its as [|[k v] its IH]; intros ns s Hs Hk.
  - simpl. rewrite (with_final_args_same _ _ Hs). reflexivity.
  - inversion Hk as [|? ? Hk1 Hk2]; subst. simpl in Hk1.
    destruct (plain_key_inv k Hk1) as (key & -> & Hkey).
    cbn [for_each fst snd].
    rewrite (bind_ret_run _ _ _ _ _ (setattr_final_run key v _ _ Hs Hkey)).
    rewrite (IH (setattr ns key v)); [reflexivity | reflexivity | assumption].
Qed.

Lemma overlay_loop_run l : forall ns s,
  final_args s = Some ns ->
  Forall (fun kv => special_attribute (fst kv) = false) l ->
  for_each l (fun kv =>
    if negb (is_None (snd kv)) && negb (is_False (snd kv))
    then setattr_final (VStr (fst kv)) (snd kv)
    else mret tt) s
  = (Ret tt, with_final_args (cli_layer l ns) s).
Proof.
  induction l as [|[k v] l IH]; intros ns s Hs Hl.
  - simpl. rewrite (with_final_args_same _ _ Hs). reflexivity.
  - inversion Hl as [|? ? Hk Hl']; subst. simpl in Hk.
    cbn [for_each fst snd]. unfold cli_layer. cbn [fold_left fst snd].
    fold (overrides v). destruct (overrides v) eqn:Hv.
    + rewrite (bind_ret_run _ _ _ _ _ (setattr_final_run _ _ _ _ Hs Hk)).
      rewrite (IH (setattr ns k v)); [reflexivity | reflexivity | assumption].
    + rewrite (bind_ret_run _ _ s tt s); [|reflexivity].
      rewrite (IH ns); [reflexivity | assumption | assumption].
Qed.

Lemma file_layer_absent its : forall ns k,
  VStr k ∉ its.*1 -> file_layer its ns !! k = ns !! k.
Proof.
  induction its as [|[k' v] its IH]; intros ns k Hk; [reflexivity|].
  rewrite fmap_cons, not_elem_of_cons in Hk. destruct Hk as [Hne Hk].
  unfold file_layer. cbn [fold_left fst snd].
  destruct k' as [| | |key| |]; try (apply IH; assumption).
  fold (file_layer its (setattr ns key v)). rewrite IH by assumption.
  unfold setattr. apply lookup_insert_ne. intros ->. apply Hne. reflexivity.
Qed.

Lemma file_layer_present its : forall ns k v,
  NoDup (its.*1) -> (VStr k, v) ∈ its -> file_layer its ns !! k = Some v.
Proof.
  induction its as [|[k' v'] its IH]; intros ns k v Hnd Hin.
  - inversion Hin.
  - rewrite fmap_cons in Hnd. apply NoDup_cons in Hnd as [Hfresh Hnd].
    apply elem_of_cons in Hin as [[= <- <-] | Hin].
    + unfold file_layer. cbn [fold_left fst snd].
      fold (file_layer its (setattr ns k v)).
      rewrite file_layer_absent by assumption.
      apply lookup_insert_eq.
    + unfold file_layer. cbn [fold_left fst snd].
      destruct k'; apply IH; assumption.
Qed.

Lemma cli_layer_skipped l : forall ns k,
  (forall v, (k, v) ∈ l -> overrides v = false) ->
  cli_layer l ns !! k = ns !! k.
Proof.
  induction l as [|[k' v'] l IH]; intros ns k H; [reflexivity|].
  unfold cli_layer. cbn [fold_left fst snd].
  destruct (overrides v') eqn:Hv.
  - fold (cli_layer l (setattr ns k' v')).
    rewrite IH by (intros v Hv'; apply H; right; assumption).
    unfold setattr. apply lookup_insert_ne. intros ->.
    specialize (H v' ltac:(left)). congruence.
  - apply IH. intros v Hv'. apply H. right. assumption.
Qed.

Lemma cli_layer_taken l : forall ns k v,
  NoDup (l.*1) -> (k, v) ∈ l -> overrides v = true ->
  cli_layer l ns !! k = Some v.
Proof.
  induction l as [|[k' v'] l IH]; intros ns k v Hnd Hin Hv.
  - inversion Hin.
  - rewrite fmap_cons in Hnd. apply NoDup_cons in Hnd as [Hfresh Hnd].
    unfold cli_layer. cbn [fold_left fst snd].
    apply elem_of_cons in Hin as [[= <- <-] | Hin].
    + rewrite Hv.
      fold (cli_layer l (setattr ns k v)).
      rewrite cli_layer_skipped.
      * apply lookup_insert_eq.
      * intros u Hin. exfalso. apply Hfresh.
        apply list_elem_of_fmap. exists (k, u). split; [reflexivity|assumption].
    + destruct (overrides v'); apply IH; assumption.
Qed.

Lemma vars_keys args :
  (vars args).*1 =
  ["target"; "method"; "config"; "attacks"; "connections"; "duration";
   "confirm_target"; "stealth"].
Proof. reflexivity. Qed.

Lemma vars_not_special args :
  Forall (fun kv => special_attribute (fst kv) = false) (vars args).
Proof. unfold vars. repeat constructor. Qed.

Lemma vars_NoDup args : NoDup ((vars args).*1).
Proof. rewrite vars_keys. apply (bool_decide_unpack _). vm_compute. reflexivity. Qed.

(** ** Each block of [main], run from a state where [final_args] is bound *)

Lemma getattr_final_run k d ns s :
  final_args s = Some ns -> getattr_final k d s = (Ret (getattr ns k d), s).
Proof.
  intros H. unfold getattr_final. step (get_final_args_run _ _ H). reflexivity.
Qed.

Lemma hasattr_final_run k ns s :
  final_args s = Some ns -> hasattr_final k s = (Ret (hasattr ns k), s).
Proof.
  intros H. unfold hasattr_final. step (get_final_args_run _ _ H). reflexivity.
Qed.

Lemma attr_final_run k ns s :
  final_args s = Some ns ->
  attr_final k s =
  match ns !! k with
  | Some v => (Ret v, s)
  | None => (Raise AttributeError, s)
  end.
Proof.
  intros H. unfold attr_final. step (get_final_args_run _ _ H).
  destruct (ns !! k); reflexivity.
Qed.

Lemma truthy_getattr ns k :
  truthy (getattr ns k VNone) = true ->
  ns !! k = Some (getattr ns k VNone).
Proof.
  unfold getattr. destruct (ns !! k); simpl; [reflexivity | discriminate].
Qed.

Lemma reconcile_run its args s :
  plain_keys its ->
  reconcile (VDict its) args s
  = (Ret tt, with_final_args (cli_layer (vars args) (file_layer its ∅)) s).
Proof.
  intros Hk. unfold reconcile.
  rewrite (bind_ret_run _ _ s tt (with_final_args ∅ s)) by reflexivity.
  unfold copy_file_config, items_of.
  rewrite (bind_ret_run _ _ _ tt
             (with_final_args (file_layer its ∅) (with_final_args ∅ s))).
  - unfold overlay_arguments.
    rewrite (overlay_loop_run _ (file_layer its ∅));
      [reflexivity | reflexivity | apply vars_not_special].
  - rewrite (bind_ret_run _ _ _ its (with_final_args ∅ s)) by reflexivity.
    apply copy_loop_run; [reflexivity | assumption].
Qed.

Lemma check_required_run ns s :
  final_args s = Some ns ->
  check_required s =
  match required_verdict ns with
  | Some c => (Exit 2, with_output [MsgUsage c] s)
  | None => (Ret tt, s)
  end.
Proof.
  intros H. unfold check_required, required_verdict.
  step (getattr_final_run "target" VNone _ _ H).
  step (getattr_final_run "method" VNone _ _ H).
  destruct (truthy (getattr ns "target" VNone)) eqn:Ht; [|reflexivity].
  destruct (truthy (getattr ns "method" VNone)) eqn:Hm; [|reflexivity].
  cbn [negb orb].
  rewrite (bind_ret_run _ _ s tt s) by reflexivity.
  rewrite bind_run, (attr_final_run "method" _ _ H), (truthy_getattr _ _ Hm).
  step (getattr_final_run "attacks" VNone _ _ H).
  destruct (py_eq_str (getattr ns "method" VNone) "mixed"
            && negb (truthy (getattr ns "attacks" VNone))); reflexivity.
Qed.

Lemma default_attr_run key v ns s :
  final_args s = Some ns ->
  special_attribute key = false ->
  default_attr key v s = (Ret tt, with_final_args (default_of key v ns) s).
Proof.
  intros H Hkey. unfold default_attr, default_of.
  step (hasattr_final_run key _ _ H).
  destruct (hasattr ns key); cbn [negb].
  - rewrite (with_final_args_same _ _ H). reflexivity.
  - apply setattr_final_run; assumption.
Qed.

Lemma apply_defaults_run ns s :
  final_args s = Some ns ->
  apply_defaults s = (Ret tt, with_final_args (defaulted ns) s).
Proof.
  intros H. unfold apply_defaults, defaulted.
  set (ns1 := default_of "connections" (VInt 100) ns).
  set (ns2 := default_of "duration" (VInt 60) ns1).
  step (default_attr_run "connections" (VInt 100) _ _ H eq_refl). fold ns1.
  step (default_attr_run "duration" (VInt 60) ns1
          (with_final_args ns1 s) eq_refl eq_refl). fold ns2.
  rewrite (default_attr_run "stealth" (VBool false) ns2
             (with_final_args ns2 (with_final_args ns1 s)) eq_refl eq_refl).
  reflexivity.
Qed.

Section MainRun.
Context (w : World).

Lemma target_hostname_run ns s :
  final_args s = Some ns ->
  target_hostname w s =
  match ns !! "target" with
  | Some (VStr url) =>
      match urlparse_hostname w url with
      | UrlRaises => (Raise ValueError, s)
      | UrlHost h => (Ret h, s)
      end
  | _ => (Raise AttributeError, s)
  end.
Proof.
  intros H. unfold target_hostname.
  rewrite bind_run, (attr_final_run "target" _ _ H).
  destruct (ns !! "target") as [[| | |url| |]|]; try reflexivity.
  destruct (urlparse_hostname w url); reflexivity.
Qed.

Lemma check_confirm_target_run h ns s :
  final_args s = Some ns ->
  check_confirm_target h s =
  let c := getattr ns "confirm_target" VNone in
  if truthy c && py_ne_hostname c h
  then (Exit 1, with_output [MsgConfirmMismatch c h] s)
  else (Ret tt, s).
Proof.
  intros H. unfold check_confirm_target. cbv zeta.
  step (getattr_final_run "confirm_target" VNone _ _ H).
  destruct (truthy (getattr ns "confirm_target" VNone)) eqn:Hc;
    [|reflexivity].
  rewrite bind_run, (attr_final_run "confirm_target" _ _ H),
    (truthy_getattr _ _ Hc).
  destruct (py_ne_hostname _ h); reflexivity.
Qed.

Lemma run_engine_run ns s :
  final_args s = Some ns ->
  run_engine w s = engine_ending (engine_run w ns) (with_engine_input ns s).
Proof.
  intros H. unfold run_engine.
  step (get_final_args_run _ _ H).
  rewrite (bind_ret_run _ _ s tt (with_engine_input ns s)) by reflexivity.
  destruct (engine_run w ns) as [| | |[| |]|]; reflexivity.
Qed.
End MainRun.

(** ** Defaults *)

Lemma default_of_lookup key v ns k :
  default_of key v ns !! k =
  match ns !! k with
  | Some x => Some x
  | None => if decide (k = key) then Some v else None
  end.
Proof.
  unfold default_of, hasattr, setattr.
  destruct (decide (k = key)) as [->|Hne].
  - destruct (ns !! key) eqn:E; [exact E | apply lookup_insert_eq].
  - destruct (ns !! key) eqn:E.
    + destruct (ns !! k); reflexivity.
    + rewrite lookup_insert_ne by congruence. destruct (ns !! k); reflexivity.
Qed.

Lemma defaulted_set ns k x :
  ns !! k = Some x -> defaulted ns !! k = Some x.
Proof.
  intros H. unfold defaulted. rewrite !default_of_lookup, H. reflexivity.
Qed.

Lemma defaulted_unset ns k :
  ns !! k = None ->
  defaulted ns !! k =
  if decide (k = "connections") then Some (VInt 100)
  else if decide (k = "duration") then Some (VInt 60)
  else if decide (k = "stealth") then Some (VBool false)
  else None.
Proof.
  intros H. unfold defaulted. rewrite !default_of_lookup, H.
  repeat case_decide; reflexivity.
Qed.

Lemma defaulted_getattr ns k :
  k <> "connections" -> k <> "duration" -> k <> "stealth" ->
  getattr (defaulted ns) k VNone = getattr ns k VNone.
Proof.
  intros H1 H2 H3. unfold getattr. destruct (ns !! k) eqn:E.
  - rewrite (defaulted_set _ _ _ E). reflexivity.
  - rewrite (defaulted_unset _ _ E). repeat case_decide; congruence.
Qed.

(** ** [main] in closed form *)

Section Closed.
Context (w : World).

Lemma load_config_from_file_run args s :
  load_config_from_file w args s =
  match config args with
  | Some path =>
      if truthy (VStr path) then
        if os_path_exists w path then
          match yaml_safe_load w path with
          | LoadRaises => (Raise LoadError, s)
          | Loaded doc => (Ret (py_or doc (VDict [])), s)
          end
        else (Exit 1, with_output [MsgConfigNotFound path] s)
      else (Ret (VDict []), s)
  | None => (Ret (VDict []), s)
  end.
Proof.
  unfold load_config_from_file.
  destruct (config args) as [path|]; [|reflexivity].
  destruct (truthy (VStr path)); [|reflexivity].
  destruct (os_path_exists w path); cbn [negb]; [|reflexivity].
  destruct (yaml_safe_load w path); reflexivity.
Qed.

Lemma main_merged args ns :
  merged w args ns ->
  main w args initial =
  match required_verdict ns with
  | Some c =>
      (Exit 2, with_output [MsgUsage c] (with_final_args ns after_banner))
  | None =>
      bootstrap w (defaulted ns) (with_final_args (defaulted ns) after_banner)
  end.
Proof.
  intros (cfg & Hload & Hrec). unfold main.
  rewrite (bind_ret_run _ _ initial tt after_banner) by reflexivity.
  step Hload. step Hrec.
  rewrite bind_run,
    (check_required_run ns (with_final_args ns after_banner) eq_refl).
  destruct (required_verdict ns); [reflexivity|].
  set (s := with_final_args ns after_banner).
  step (apply_defaults_run ns s eq_refl).
  set (s' := with_final_args (defaulted ns) s).
  rewrite bind_run, (target_hostname_run w _ s' eq_refl).
  unfold bootstrap.
  destruct (defaulted ns !! "target") as [[| | |url| |]|]; try reflexivity.
  destruct (urlparse_hostname w url) as [|h]; [reflexivity|].
  rewrite bind_run, (check_confirm_target_run h _ s' eq_refl).
  cbv zeta.
  destruct (truthy _ && py_ne_hostname _ h); [reflexivity|].
  rewrite (run_engine_run w _ s' eq_refl).
  destruct (engine_run w (defaulted ns)); reflexivity.
Qed.
End Closed.

(** ** Auxiliary facts about the inputs *)

(** Discharges [NoDup] on a literal list of keys. *)
Ltac distinct_keys :=
  simpl;
  repeat (apply NoDup_cons_2;
          [ let H := fresh in
            intros H;
            repeat (apply elem_of_cons in H as [H|H]; [discriminate H|]);
            inversion H
          | ]);
  apply NoDup_nil_2.

Lemma unique_binding {A} (l : list (string * A)) k v1 v2 :
  NoDup (l.*1) -> (k, v1) ∈ l -> (k, v2) ∈ l -> v1 = v2.
Proof.
  induction l as [|[k' v'] l IH]; intros Hnd H1 H2; [inversion H1|].
  rewrite fmap_cons in Hnd. apply NoDup_cons in Hnd as [Hfresh Hnd].
  assert (Hk : forall u, (k', u) ∈ l -> False).
  { intros u Hu. apply Hfresh. apply list_elem_of_fmap.
    exists (k', u). split; [reflexivity | assumption]. }
  apply elem_of_cons in H1 as [[= -> ->] | H1];
    apply elem_of_cons in H2 as [[= ?] | H2]; subst.
  - reflexivity.
  - destruct (Hk _ H2).
  - destruct (Hk _ H1).
  - apply IH; assumption.
Qed.

Lemma merged_without_file w args :
  config args = None ->
  merged w args (cli_layer (vars args) ∅).
Proof.
  intros Hc. exists (VDict []). split.
  - rewrite load_config_from_file_run, Hc. reflexivity.
  - apply (reconcile_run [] args after_banner). constructor.
Qed.

Lemma merged_with_file w args path its :
  config args = Some path ->
  path <> "" ->
  os_path_exists w path = true ->
  yaml_safe_load w path = Loaded (VDict its) ->
  plain_keys its ->
  merged w args (cli_layer (vars args) (file_layer its ∅)).
Proof.
  intros Hc Hp He Hl Hk.
  exists (py_or (VDict its) (VDict [])). split.
  - rewrite load_config_from_file_run, Hc, He, Hl.
    simpl. destruct (String.eqb_spec path ""); [contradiction|].
    reflexivity.
  - destruct its as [|kv its'].
    + apply (reconcile_run [] args after_banner). constructor.
    + apply (reconcile_run (kv :: its') args after_banner). assumption.
Qed.

(** The engine, when it is built, is given the merged namespace with the
    defaults of lines 98-100. *)
Lemma engine_input_defaulted w args ns e :
  merged w args ns ->
  engine_input (snd (run w args)) = Some e ->
  e = defaulted ns.
Proof.
  intros Hm. unfold run. rewrite (main_merged w args ns Hm).
  destruct (required_verdict ns); [discriminate|].
  unfold bootstrap.
  destruct (defaulted ns !! "target") as [[| | |url| |]|];
    try discriminate.
  destruct (urlparse_hostname w url) as [|h]; [discriminate|].
  cbv zeta. destruct (_ && _); [discriminate|].
  destruct (engine_run w (defaulted ns)) as [| | |[| |]|]; simpl; congruence.
Qed.

(** ** The reconciliation claims *)



(** C4.  A field supplied on the command line with a value that is
    neither [None] nor [False] has the command-line value after the merge
    of lines 83-90, whatever the file configuration holds for it, and
    keeps it through the defaults of lines 98-100.  The file is a mapping
    whose keys are strings other than [__dict__], [__class__] and
    [__weakref__], so that every key of it is stored as an attribute. *)
Theorem command_line_overrides_file
  (its : list (value * value)) (args : RawArguments) (k : string)
  (v : value) (s : process) :
  plain_keys its ->
  (k, v) ∈ vars args ->
  is_None v = false ->
  is_False v = false ->
  exists ns ns',
    reconcile (VDict its) args s = (Ret tt, with_final_args ns s)
    /\ ns !! k = Some v
    /\ apply_defaults (with_final_args ns s) = (Ret tt, with_final_args ns' s)
    /\ ns' !! k = Some v.
Proof.
  intros Hstr Hcli Hn Hf.
  set (ns := cli_layer (vars args) (file_layer its ∅)).
  assert (Hk : ns !! k = Some v).
  { apply cli_layer_taken; [apply vars_NoDup | assumption |].
    unfold overrides. rewrite Hn, Hf. reflexivity. }
  exists ns, (defaulted ns). repeat split.
  - apply reconcile_run. assumption.
  - exact Hk.
  - apply (apply_defaults_run ns (with_final_args ns s)). reflexivity.
  - apply defaulted_set. exact Hk.
Qed.

Lemma command_line_overrides_file_witness :
  exists ns ns',
    reconcile
      (VDict [(VStr "target", VStr "http://file.example");
              (VStr "method", VStr "slowloris")])
      (cli "http://cli.example" HttpFlood) initial
    = (Ret tt, with_final_args ns initial)
    /\ ns !! "target" = Some (VStr "http://cli.example")
    /\ apply_defaults (with_final_args ns initial)
       = (Ret tt, with_final_args ns' initial)
    /\ ns' !! "target" = Some (VStr "http://cli.example").
Proof.
  apply command_line_overrides_file.
  - repeat constructor.
  - left.
  - reflexivity.
  - reflexivity.
Defined.



(** C10.  The filter of line 89 drops exactly [None] and [False]; the
    integer 0 is neither, although [0 == False], so [-c 0] and [-d 0]
    replace whatever the file configuration holds for the field.  The
    file is a mapping whose keys are strings other than [__dict__],
    [__class__] and [__weakref__]. *)
Theorem zero_overrides_file
  (its : list (value * value)) (args : RawArguments) (k : string)
  (s : process) :
  plain_keys its ->
  (k = "connections" /\ connections args = Some 0%Z)
  \/ (k = "duration" /\ duration args = Some 0%Z) ->
  (exists ns ns',
      reconcile (VDict its) args s = (Ret tt, with_final_args ns s)
      /\ ns !! k = Some (VInt 0)
      /\ apply_defaults (with_final_args ns s)
         = (Ret tt, with_final_args ns' s)
      /\ ns' !! k = Some (VInt 0))
  /\ py_eq_int (VBool false) 0 = true
  /\ is_False (VInt 0) = false
  /\ (forall v, negb (is_None v) && negb (is_False v) = false
                <-> v = VNone \/ v = VBool false).
Proof.
  intros Hstr Hk. split; [|split; [reflexivity | split; [reflexivity|]]].
  - set (ns := cli_layer (vars args) (file_layer its ∅)).
    assert (Hin : (k, VInt 0) ∈ vars args).
    { destruct Hk as [[-> H]|[-> H]]; unfold vars; rewrite H; simpl.
      - do 4 right. left.
      - do 5 right. left. }
    assert (Hns : ns !! k = Some (VInt 0)).
    { apply cli_layer_taken; [apply vars_NoDup | assumption | reflexivity]. }
    exists ns, (defaulted ns). repeat split.
    + apply reconcile_run. assumption.
    + exact Hns.
    + apply (apply_defaults_run ns (with_final_args ns s)). reflexivity.
    + apply defaulted_set. exact Hns.
  - intros v. split.
    + destruct v as [|[|]| | | |]; simpl; intros H;
        try discriminate; auto.
    + intros [->| ->]; reflexivity.
Qed.

Lemma zero_overrides_file_witness :
  (exists ns ns',
      reconcile
        (VDict [(VStr "target", VStr "http://good.com");
                (VStr "method", VStr "http-flood");
                (VStr "connections", VInt 500)])
        {| target := None; method := None; config := Some "config.yaml";
           attacks := None; connections := Some 0%Z; duration := None;
           confirm_target := None; stealth := false |}
        initial
      = (Ret tt, with_final_args ns initial)
      /\ ns !! "connections" = Some (VInt 0)
      /\ apply_defaults (with_final_args ns initial)
         = (Ret tt, with_final_args ns' initial)
      /\ ns' !! "connections" = Some (VInt 0))
  /\ py_eq_int (VBool false) 0 = true
  /\ is_False (VInt 0) = false
  /\ (forall v, negb (is_None v) && negb (is_False v) = false
                <-> v = VNone \/ v = VBool false).
Proof.
  apply zero_overrides_file.
  - repeat constructor.
  - left. split; reflexivity.
Defined.

(** ** The validation and bootstrap claims *)

Lemma truthy_nonempty_path (path : string) :
  path <> "" -> truthy (VStr path) = true.
Proof.
  intros H. simpl. destruct (String.eqb_spec path ""); [contradiction|].
  reflexivity.
Qed.

(** C7 (as amended).  When [--config] names a non-empty path at which no
    file exists, the process prints the configuration-file-not-found
    message and exits with status 1; [final_args] has not been created
    by then, so nothing has been merged, and the engine is not built. *)
Theorem missing_config_file_is_fatal
  (w : World) (args : RawArguments) (path : string) :
  config args = Some path ->
  path <> "" ->
  os_path_exists w path = false ->
  run w args = (1%Z, with_output [MsgConfigNotFound path] after_banner)
  /\ final_args (snd (run w args)) = None
  /\ engine_input (snd (run w args)) = None.
Proof.
  intros Hc Hp He.
  assert (Hrun : run w args
                 = (1%Z, with_output [MsgConfigNotFound path] after_banner)).
  { unfold run, main.
    rewrite (bind_ret_run _ _ initial tt after_banner) by reflexivity.
    rewrite bind_run, load_config_from_file_run, Hc,
      (truthy_nonempty_path _ Hp), He.
    reflexivity. }
  rewrite Hrun. repeat split.
Qed.

Lemma missing_config_file_is_fatal_witness :
  run (bare_world EngineReturns) (cli_config "missing.yaml")
  = (1%Z, with_output [MsgConfigNotFound "missing.yaml"] after_banner)
  /\ final_args (snd (run (bare_world EngineReturns)
                          (cli_config "missing.yaml"))) = None
  /\ engine_input (snd (run (bare_world EngineReturns)
                            (cli_config "missing.yaml"))) = None.
Proof.
  apply missing_config_file_is_fatal.
  - reflexivity.
  - discriminate.
  - reflexivity.
Defined.

(** C7 as stated fails for the empty path: [--config ""] gives a path at
    which no file exists, yet line 76 treats it as no path; the run goes
    on through the merge to the engine and ends with status 0. *)
Lemma empty_config_path_is_not_fatal :
  config cli_empty_config = Some ""
  /\ os_path_exists (bare_world EngineReturns) "" = false
  /\ fst (run (bare_world EngineReturns) cli_empty_config) = 0%Z
  /\ output (snd (run (bare_world EngineReturns) cli_empty_config))
     = [MsgDisclaimer; MsgSuccess]
  /\ is_Some (final_args (snd (run (bare_world EngineReturns)
                                   cli_empty_config)))
  /\ is_Some (engine_input (snd (run (bare_world EngineReturns)
                                     cli_empty_config))).
Proof.
  repeat split; try (vm_compute; reflexivity); vm_compute; eexists; reflexivity.
Qed.

Lemma run_usage_error w args ns c :
  merged w args ns ->
  required_verdict ns = Some c ->
  run w args
  = (2%Z, with_output [MsgUsage c] (with_final_args ns after_banner)).
Proof.
  intros Hm Hv. unfold run. rewrite (main_merged w args ns Hm), Hv.
  reflexivity.
Qed.

Lemma run_validated w args ns :
  merged w args ns ->
  required_verdict ns = None ->
  run w args =
  match bootstrap w (defaulted ns)
          (with_final_args (defaulted ns) after_banner) with
  | (Ret _, s) => (0%Z, s)
  | (Exit c, s) => (c, s)
  | (Raise e, s) => (1%Z, with_output [MsgTraceback e] s)
  end.
Proof.
  intros Hm Hv. unfold run. rewrite (main_merged w args ns Hm), Hv.
  reflexivity.
Qed.

(** C1 (as amended).  A merged configuration without a target or a
    method, or with method [mixed] and no attacks, goes to
    [parser.error]: the process prints the usage complaint and exits
    with status 2, the status of every other usage error, before the
    engine is built. *)
Theorem usage_errors_exit_2 (w : World) (args : RawArguments)
  (ns : namespace) :
  merged w args ns ->
  truthy (getattr ns "target" VNone) = false
  \/ truthy (getattr ns "method" VNone) = false
  \/ (py_eq_str (getattr ns "method" VNone) "mixed" = true
      /\ truthy (getattr ns "attacks" VNone) = false) ->
  fst (run w args) = 2%Z
  /\ (exists c, output (snd (run w args)) = [MsgDisclaimer; MsgUsage c])
  /\ engine_input (snd (run w args)) = None.
Proof.
  intros Hm Hbad.
  assert (Hv : exists c, required_verdict ns = Some c).
  { unfold required_verdict.
    destruct Hbad as [H | [H | [H1 H2]]]; rewrite ?H, ?H1, ?H2; cbn.
    - eauto.
    - rewrite orb_true_r. eauto.
    - destruct (_ || _); eauto. }
  destruct Hv as [c Hv].
  rewrite (run_usage_error w args ns c Hm Hv).
  repeat split. exists c. reflexivity.
Qed.

Lemma usage_errors_exit_2_witness :
  fst (run (bare_world EngineReturns) (cli "http://x.com" Mixed)) = 2%Z
  /\ (exists c,
         output (snd (run (bare_world EngineReturns) (cli "http://x.com" Mixed)))
         = [MsgDisclaimer; MsgUsage c])
  /\ engine_input (snd (run (bare_world EngineReturns)
                            (cli "http://x.com" Mixed))) = None.
Proof.
  apply (usage_errors_exit_2 _ _
           (cli_layer (vars (cli "http://x.com" Mixed)) ∅)).
  - apply merged_without_file. reflexivity.
  - right. right. split; vm_compute; reflexivity.
Defined.

(** C1 as stated fails: with no target (first run) and with method
    [mixed] and no attacks (second run) the exit status is 2, not 1. *)
Lemma usage_errors_do_not_exit_1 :
  (merged (bare_world EngineReturns) no_arguments
     (cli_layer (vars no_arguments) ∅)
   /\ truthy (getattr (cli_layer (vars no_arguments) ∅) "target" VNone)
      = false
   /\ fst (run (bare_world EngineReturns) no_arguments) = 2%Z
   /\ fst (run (bare_world EngineReturns) no_arguments) <> 1%Z)
  /\ (merged (bare_world EngineReturns) (cli "http://x.com" Mixed)
        (cli_layer (vars (cli "http://x.com" Mixed)) ∅)
      /\ py_eq_str
           (getattr (cli_layer (vars (cli "http://x.com" Mixed)) ∅)
              "method" VNone) "mixed" = true
      /\ truthy
           (getattr (cli_layer (vars (cli "http://x.com" Mixed)) ∅)
              "attacks" VNone) = false
      /\ fst (run (bare_world EngineReturns) (cli "http://x.com" Mixed))
         = 2%Z
      /\ fst (run (bare_world EngineReturns) (cli "http://x.com" Mixed))
         <> 1%Z).
Proof.
  split; repeat split;
    try (apply merged_without_file; reflexivity);
    try (vm_compute; reflexivity);
    vm_compute; discriminate.
Qed.




Lemma bootstrap_mismatch w ns s url h :
  ns !! "target" = Some (VStr url) ->
  urlparse_hostname w url = UrlHost h ->
  truthy (getattr ns "confirm_target" VNone) = true ->
  py_ne_hostname (getattr ns "confirm_target" VNone) h = true ->
  bootstrap w ns s
  = (Exit 1,
     with_output [MsgConfirmMismatch (getattr ns "confirm_target" VNone) h] s).
Proof.
  intros Ht Hu Hc Hne. unfold bootstrap. rewrite Ht, Hu. cbv zeta.
  rewrite Hc, Hne. reflexivity.
Qed.

Lemma bootstrap_engine w ns s url h :
  ns !! "target" = Some (VStr url) ->
  urlparse_hostname w url = UrlHost h ->
  truthy (getattr ns "confirm_target" VNone)
  && py_ne_hostname (getattr ns "confirm_target" VNone) h = false ->
  bootstrap w ns s
  = engine_ending (engine_run w ns) (with_engine_input ns s).
Proof.
  intros Ht Hu Hc. unfold bootstrap. rewrite Ht, Hu. cbv zeta.
  rewrite Hc. reflexivity.
Qed.

Lemma defaulted_confirm_target ns :
  getattr (defaulted ns) "confirm_target" VNone
  = getattr ns "confirm_target" VNone.
Proof. apply defaulted_getattr; discriminate. Qed.

Lemma defaulted_target ns v :
  ns !! "target" = Some v -> defaulted ns !! "target" = Some v.
Proof. apply defaulted_set. Qed.

(** C8.  A target whose hostname is [good.com], whatever its path and
    query, together with the confirmation [evil.com] ends the process
    with the mismatch message and status 1, before the engine is built.
    The merged configuration is one that reaches line 102, that is, one
    that passes the checks of lines 92-96. *)
Theorem evil_confirm_target_rejected (w : World) (args : RawArguments)
  (ns : namespace) (url : string) :
  merged w args ns ->
  required_verdict ns = None ->
  ns !! "target" = Some (VStr url) ->
  urlparse_hostname w url = UrlHost (Some "good.com") ->
  ns !! "confirm_target" = Some (VStr "evil.com") ->
  run w args
  = (1%Z,
     with_output [MsgConfirmMismatch (VStr "evil.com") (Some "good.com")]
       (with_final_args (defaulted ns) after_banner))
  /\ engine_input (snd (run w args)) = None.
Proof.
  intros Hm Hv Ht Hu Hc.
  assert (Hrun : run w args
    = (1%Z,
       with_output [MsgConfirmMismatch (VStr "evil.com") (Some "good.com")]
         (with_final_args (defaulted ns) after_banner))).
  { rewrite (run_validated w args ns Hm Hv).
    rewrite (bootstrap_mismatch w _ _ url (Some "good.com")).
    - rewrite defaulted_confirm_target. unfold getattr. rewrite Hc.
      reflexivity.
    - apply defaulted_target. assumption.
    - assumption.
    - rewrite defaulted_confirm_target. unfold getattr. rewrite Hc.
      reflexivity.
    - rewrite defaulted_confirm_target. unfold getattr. rewrite Hc.
      reflexivity. }
  rewrite Hrun. split; reflexivity.
Qed.

Lemma evil_confirm_target_rejected_witness :
  run (bare_world EngineReturns)
    (cli_confirm "http://good.com/path?q=1" HttpFlood "evil.com")
  = (1%Z,
     with_output [MsgConfirmMismatch (VStr "evil.com") (Some "good.com")]
       (with_final_args
          (defaulted
             (cli_layer
                (vars (cli_confirm "http://good.com/path?q=1" HttpFlood
                         "evil.com")) ∅))
          after_banner))
  /\ engine_input
       (snd (run (bare_world EngineReturns)
               (cli_confirm "http://good.com/path?q=1" HttpFlood
                  "evil.com"))) = None.
Proof.
  apply (evil_confirm_target_rejected _ _ _ "http://good.com/path?q=1").
  - apply merged_without_file. reflexivity.
  - vm_compute. reflexivity.
  - vm_compute. reflexivity.
  - vm_compute. reflexivity.
  - vm_compute. reflexivity.
Defined.

(** The checks of lines 92-96 come before the confirmation: the same
    target and confirmation without a method end at line 93, with the
    complaint about the required arguments and status 2. *)
Example required_arguments_precede_confirmation :
  urlparse_hostname (bare_world EngineReturns) "http://good.com/path"
  = UrlHost (Some "good.com")
  /\ confirm_target cli_confirm_no_method = Some "evil.com"
  /\ fst (run (bare_world EngineReturns) cli_confirm_no_method) = 2%Z
  /\ output (snd (run (bare_world EngineReturns) cli_confirm_no_method))
     = [MsgDisclaimer; MsgUsage MissingRequiredArgument].
Proof. repeat split; vm_compute; reflexivity. Qed.

(** C3 (as amended).  In a merged configuration that passes lines 92-96
    and whose target is a string that [urlparse] accepts, a
    confirmation that is truthy is compared with the hostname that
    [urlparse] returns: the process ends with the mismatch message and
    status 1 when [!=] holds, and goes on to the engine when it does
    not; for two strings [!=] is plain inequality.  A confirmation that
    is absent or falsy goes on to the engine without a comparison. *)
Theorem confirm_target_gate (w : World) (args : RawArguments)
  (ns : namespace) (url : string) (h : option string) :
  merged w args ns ->
  required_verdict ns = None ->
  ns !! "target" = Some (VStr url) ->
  urlparse_hostname w url = UrlHost h ->
  (truthy (getattr ns "confirm_target" VNone) = true ->
   py_ne_hostname (getattr ns "confirm_target" VNone) h = true ->
   run w args
   = (1%Z,
      with_output
        [MsgConfirmMismatch (getattr ns "confirm_target" VNone) h]
        (with_final_args (defaulted ns) after_banner)))
  /\ (truthy (getattr ns "confirm_target" VNone) = true ->
      py_ne_hostname (getattr ns "confirm_target" VNone) h = false ->
      engine_input (snd (run w args)) = Some (defaulted ns))
  /\ (truthy (getattr ns "confirm_target" VNone) = false ->
      engine_input (snd (run w args)) = Some (defaulted ns))
  /\ (forall x y : string,
         py_ne_hostname (VStr x) (Some y) = true <-> x <> y).
Proof.
  intros Hm Hv Ht Hu.
  assert (Hpass :
    truthy (getattr ns "confirm_target" VNone)
    && py_ne_hostname (getattr ns "confirm_target" VNone) h = false ->
    engine_input (snd (run w args)) = Some (defaulted ns)).
  { intros Hc. rewrite (run_validated w args ns Hm Hv).
    rewrite (bootstrap_engine w _ _ url h).
    - destruct (engine_run w (defaulted ns)) as [| | |[| |]|]; reflexivity.
    - apply defaulted_target. assumption.
    - assumption.
    - rewrite defaulted_confirm_target. assumption. }
  repeat split.
  - intros Hc Hne. rewrite (run_validated w args ns Hm Hv).
    rewrite (bootstrap_mismatch w _ _ url h).
    + rewrite defaulted_confirm_target. reflexivity.
    + apply defaulted_target. assumption.
    + assumption.
    + rewrite defaulted_confirm_target. assumption.
    + rewrite defaulted_confirm_target. assumption.
  - intros Hc Hne. apply Hpass. rewrite Hc, Hne. reflexivity.
  - intros Hc. apply Hpass. rewrite Hc. reflexivity.
  - simpl. destruct (String.eqb_spec x y); simpl; intros H;
      [discriminate | assumption].
  - simpl. destruct (String.eqb_spec x y); simpl; intros H;
      [contradiction | reflexivity].
Qed.

Lemma confirm_target_gate_witness :
  let args := cli_confirm "http://Good.COM/a" HttpFlood "good.com" in
  let ns := cli_layer (vars args) ∅ in
  let h := Some "good.com" in
  (truthy (getattr ns "confirm_target" VNone) = true ->
   py_ne_hostname (getattr ns "confirm_target" VNone) h = true ->
   run (bare_world EngineReturns) args
   = (1%Z,
      with_output
        [MsgConfirmMismatch (getattr ns "confirm_target" VNone) h]
        (with_final_args (defaulted ns) after_banner)))
  /\ (truthy (getattr ns "confirm_target" VNone) = true ->
      py_ne_hostname (getattr ns "confirm_target" VNone) h = false ->
      engine_input (snd (run (bare_world EngineReturns) args))
      = Some (defaulted ns))
  /\ (truthy (getattr ns "confirm_target" VNone) = false ->
      engine_input (snd (run (bare_world EngineReturns) args))
      = Some (defaulted ns))
  /\ (forall x y : string,
         py_ne_hostname (VStr x) (Some y) = true <-> x <> y).
Proof.
  apply (confirm_target_gate _ _ _ "http://Good.COM/a").
  - apply merged_without_file. reflexivity.
  - vm_compute. reflexivity.
  - vm_compute. reflexivity.
  - vm_compute. reflexivity.
Defined.

(** C3 as stated fails twice.  The hostname that is compared need not
    be the one written in the URL: for [http://GOOD.com/] [urlparse]
    returns [good.com], so a confirmation that repeats the host of that
    URL byte for byte is rejected, and [good.com], which differs from
    what is written, is accepted.  And a confirmation that is present
    but empty is not compared at all. *)
Lemma confirm_target_compares_lowered_hostname :
  (UrlParse.written_host "http://GOOD.com/" = Some "GOOD.com"
   /\ confirm_target (cli_confirm "http://GOOD.com/" HttpFlood "GOOD.com")
      = Some "GOOD.com"
   /\ run (bare_world EngineReturns)
        (cli_confirm "http://GOOD.com/" HttpFlood "GOOD.com")
      = (1%Z,
         with_output
           [MsgConfirmMismatch (VStr "GOOD.com") (Some "good.com")]
           (with_final_args
              (defaulted
                 (cli_layer
                    (vars (cli_confirm "http://GOOD.com/" HttpFlood
                             "GOOD.com")) ∅))
              after_banner)))
  /\ ("good.com" <> "GOOD.com"
      /\ fst (run (bare_world EngineReturns)
                (cli_confirm "http://GOOD.com/" HttpFlood "good.com"))
         = 0%Z
      /\ output (snd (run (bare_world EngineReturns)
                        (cli_confirm "http://GOOD.com/" HttpFlood
                           "good.com")))
         = [MsgDisclaimer; MsgSuccess])
  /\ (confirm_target (cli_confirm "http://good.com/" HttpFlood "")
      = Some ""
      /\ urlparse_hostname (bare_world EngineReturns) "http://good.com/"
         = UrlHost (Some "good.com")
      /\ "" <> "good.com"
      /\ fst (run (bare_world EngineReturns)
                (cli_confirm "http://good.com/" HttpFlood "")) = 0%Z
      /\ output (snd (run (bare_world EngineReturns)
                        (cli_confirm "http://good.com/" HttpFlood "")))
         = [MsgDisclaimer; MsgSuccess]).
Proof.
  repeat split; try discriminate; vm_compute; reflexivity.
Qed.

(** ** Everything before the engine is silent *)

Lemma silent_ret {A} (a : A) : silent (mret a).
Proof. intros s. split; reflexivity. Qed.

Lemma silent_raise {A} (e : exn) : silent (@raise A e).
Proof. intros s. split; [reflexivity | discriminate]. Qed.

Lemma silent_print_exit {A} (m : message) (c : Z) :
  silent (print m ;; @sys_exit A c).
Proof. intros s. split; [reflexivity | discriminate]. Qed.

Lemma silent_parser_error {A} (c : usage_complaint) :
  silent (@parser_error A c).
Proof. apply silent_print_exit. Qed.

Lemma silent_bind {A B} (m : M A) (f : A -> M B) :
  silent m -> (forall a, silent (f a)) -> silent (m ≫= f).
Proof.
  intros Hm Hf s. rewrite bind_run.
  destruct (Hm s) as [He Ho].
  destruct (m s) as [[a|c|e] s1]; simpl in He, Ho.
  - destruct (Hf a s1) as [He' Ho']. split.
    + congruence.
    + intros b Hb. rewrite (Ho' b Hb). apply (Ho a). reflexivity.
  - split; [assumption | discriminate].
  - split; [assumption | discriminate].
Qed.

Lemma silent_get_final_args : silent get_final_args.
Proof.
  intros s. unfold get_final_args.
  destruct (final_args s); split; try reflexivity; discriminate.
Qed.

Lemma silent_set_final_args ns : silent (set_final_args ns).
Proof. intros s. split; reflexivity. Qed.

Lemma silent_setattr_final k v : silent (setattr_final k v).
Proof.
  unfold setattr_final.
  destruct k as [| | |key| |]; try apply silent_raise.
  destruct (String.eqb key "__dict__").
  { destruct v; try apply silent_raise.
    apply silent_bind; [apply silent_get_final_args|].
    intros _. apply silent_set_final_args. }
  destruct (String.eqb key "__class__"); [apply silent_raise|].
  destruct (String.eqb key "__weakref__"); [apply silent_raise|].
  apply silent_bind; [apply silent_get_final_args|].
  intros ns. apply silent_set_final_args.
Qed.

Lemma silent_attr_final k : silent (attr_final k).
Proof.
  unfold attr_final.
  apply silent_bind; [apply silent_get_final_args|].
  intros ns. destruct (ns !! k); [apply silent_ret | apply silent_raise].
Qed.

Lemma silent_getattr_final k d : silent (getattr_final k d).
Proof.
  unfold getattr_final.
  apply silent_bind; [apply silent_get_final_args|].
  intros ns. apply silent_ret.
Qed.

Lemma silent_hasattr_final k : silent (hasattr_final k).
Proof.
  unfold hasattr_final.
  apply silent_bind; [apply silent_get_final_args|].
  intros ns. apply silent_ret.
Qed.

Lemma silent_for_each {A} (xs : list A) (body : A -> M unit) :
  (forall x, silent (body x)) -> silent (for_each xs body).
Proof.
  intros Hb. induction xs as [|x xs IH]; cbn [for_each].
  - apply silent_ret.
  - apply silent_bind; [apply Hb | intros _; exact IH].
Qed.

Lemma silent_load_config_from_file w args :
  silent (load_config_from_file w args).
Proof.
  intros s. rewrite load_config_from_file_run.
  destruct (config args) as [path|]; [|split; reflexivity].
  destruct (truthy (VStr path)); [|split; reflexivity].
  destruct (os_path_exists w path).
  - destruct (yaml_safe_load w path); split;
      try reflexivity; discriminate.
  - split; [reflexivity | discriminate].
Qed.

Lemma silent_reconcile cfg args : silent (reconcile cfg args).
Proof.
  unfold reconcile.
  apply silent_bind; [apply silent_set_final_args | intros _].
  apply silent_bind.
  - unfold copy_file_config. apply silent_bind.
    + unfold items_of. destruct cfg; try apply silent_raise.
      apply silent_ret.
    + intros its. apply silent_for_each. intros kv.
      apply silent_setattr_final.
  - intros _. unfold overlay_arguments. apply silent_for_each. intros kv.
    destruct (_ && _); [apply silent_setattr_final | apply silent_ret].
Qed.

Lemma silent_check_required : silent check_required.
Proof.
  unfold check_required.
  apply silent_bind; [apply silent_getattr_final | intros t].
  apply silent_bind; [apply silent_getattr_final | intros m].
  apply silent_bind.
  - destruct (_ || _); [apply silent_parser_error | apply silent_ret].
  - intros _.
    apply silent_bind; [apply silent_attr_final | intros m'].
    apply silent_bind; [apply silent_getattr_final | intros a].
    destruct (_ && _); [apply silent_parser_error | apply silent_ret].
Qed.

Lemma silent_default_attr k v : silent (default_attr k v).
Proof.
  unfold default_attr.
  apply silent_bind; [apply silent_hasattr_final | intros h].
  destruct (negb h); [apply silent_setattr_final | apply silent_ret].
Qed.

Lemma silent_apply_defaults : silent apply_defaults.
Proof.
  unfold apply_defaults.
  repeat (apply silent_bind; [apply silent_default_attr | intros _]).
  apply silent_default_attr.
Qed.

Lemma silent_target_hostname w : silent (target_hostname w).
Proof.
  unfold target_hostname.
  apply silent_bind; [apply silent_attr_final | intros t].
  destruct t; try apply silent_raise.
  destruct (urlparse_hostname w s); [apply silent_raise | apply silent_ret].
Qed.

Lemma silent_check_confirm_target h : silent (check_confirm_target h).
Proof.
  unfold check_confirm_target.
  apply silent_bind; [apply silent_getattr_final | intros c].
  destruct (truthy c); [|apply silent_ret].
  apply silent_bind; [apply silent_attr_final | intros c'].
  destruct (py_ne_hostname c' h);
    [apply silent_print_exit | apply silent_ret].
Qed.

Lemma clean_bind {A} w (m : M A) (f : A -> M unit) :
  silent m -> (forall a, clean_on_interrupt w (f a)) ->
  clean_on_interrupt w (m ≫= f).
Proof.
  intros Hm Hf s ns Hs. rewrite bind_run.
  destruct (Hm s) as [He Ho].
  destruct (m s) as [[a|c|e] s1]; simpl in He, Ho.
  - intros Hin Hki.
    destruct (Hf a s1 ns) as [Hr Hout]; [congruence | assumption.. |].
    split; [assumption|]. rewrite Hout. apply (Ho a). reflexivity.
  - simpl. congruence.
  - simpl. congruence.
Qed.

Lemma clean_run_engine w : clean_on_interrupt w (run_engine w).
Proof.
  intros s ns Hs. destruct (final_args s) as [ns0|] eqn:Hf.
  - rewrite (run_engine_run w ns0 s Hf).
    unfold engine_ending.
    destruct (engine_run w ns0) as [| | |[| |]|] eqn:He; simpl;
      intros [= <-] Hki; try congruence.
    split; reflexivity.
  - unfold run_engine. rewrite bind_run. unfold get_final_args.
    rewrite Hf. simpl. congruence.
Qed.

Lemma clean_main_after_banner w args :
  clean_on_interrupt w
    (config_from_file ← load_config_from_file w args;
     reconcile config_from_file args ;;
     check_required ;;
     apply_defaults ;;
     target_domain ← target_hostname w;
     check_confirm_target target_domain ;;
     run_engine w).
Proof.
  apply clean_bind; [apply silent_load_config_from_file | intros cfg].
  apply clean_bind; [apply silent_reconcile | intros _].
  apply clean_bind; [apply silent_check_required | intros _].
  apply clean_bind; [apply silent_apply_defaults | intros _].
  apply clean_bind; [apply silent_target_hostname | intros h].
  apply clean_bind; [apply silent_check_confirm_target | intros _].
  apply clean_run_engine.
Qed.

(** C9.  Whenever the engine has been started and ends in a
    [KeyboardInterrupt], the process exits with status 0 and the banner
    is all it has printed: no error line and no success line. *)
Theorem interrupt_is_clean_exit (w : World) (args : RawArguments)
  (ns : namespace) :
  engine_input (snd (run w args)) = Some ns ->
  engine_run w ns = EngineKeyboardInterrupt ->
  fst (run w args) = 0%Z
  /\ output (snd (run w args)) = [MsgDisclaimer].
Proof.
  intros Hin Hki.
  pose proof (clean_main_after_banner w args after_banner ns eq_refl) as H.
  unfold run in *. unfold main in *.
  rewrite (bind_ret_run _ _ initial tt after_banner) in * by reflexivity.
  match goal with
  | |- context [match ?m after_banner with _ => _ end] =>
      destruct (m after_banner) as [[[]|c|e] s1] eqn:E
  end; simpl in *.
  - destruct (H Hin Hki) as [_ Hout]. split; [reflexivity | exact Hout].
  - destruct (H Hin Hki) as [Hr _]. discriminate.
  - destruct (H Hin Hki) as [Hr _]. discriminate.
Qed.

Lemma interrupt_is_clean_exit_witness :
  fst (run (bare_world EngineKeyboardInterrupt)
         (cli "http://good.com" HttpFlood)) = 0%Z
  /\ output (snd (run (bare_world EngineKeyboardInterrupt)
                    (cli "http://good.com" HttpFlood)))
     = [MsgDisclaimer].
Proof.
  apply (interrupt_is_clean_exit _ _
           (defaulted (cli_layer (vars (cli "http://good.com" HttpFlood)) ∅))).
  - vm_compute. reflexivity.
  - reflexivity.
Defined.

(** ** Scenarios *)

(** A configuration file with a target and a method, and no overrides on
    the command line: the engine is given the two with the three
    defaults, and a normal return ends the process with the success
    line and status 0. *)
Example scenario_file_only :
  let w := file_world "config.yaml"
             (VDict [(VStr "target", VStr "http://good.com");
                     (VStr "method", VStr "http-flood")])
             EngineReturns in
  let r := run w (cli_config "config.yaml") in
  fst r = 0%Z
  /\ output (snd r) = [MsgDisclaimer; MsgSuccess]
  /\ exists ns,
       engine_input (snd r) = Some ns
       /\ ns !! "target" = Some (VStr "http://good.com")
       /\ ns !! "method" = Some (VStr "http-flood")
       /\ ns !! "connections" = Some (VInt 100)
       /\ ns !! "duration" = Some (VInt 60)
       /\ ns !! "stealth" = Some (VBool false).
Proof.
  cbv zeta. split; [vm_compute; reflexivity|].
  split; [vm_compute; reflexivity|].
  eexists. split; [vm_compute; reflexivity|].
  repeat split; vm_compute; reflexivity.
Qed.

(** A failure of the engine is reported with its message and ends the
    process with status 1. *)
Example scenario_engine_failure :
  run (bare_world (EngineRaises "boom")) (cli "http://good.com" Slowloris)
  = (1%Z,
     with_output [MsgUnexpected "boom"]
       (with_engine_input
          (defaulted (cli_layer (vars (cli "http://good.com" Slowloris)) ∅))
          (with_final_args
             (defaulted
                (cli_layer (vars (cli "http://good.com" Slowloris)) ∅))
             after_banner))).
Proof.
  unfold run.
  rewrite (main_merged _ _ _
             (merged_without_file _ (cli "http://good.com" Slowloris) eq_refl)).
  reflexivity.
Qed.

(** * Further properties of [main] *)

(** ** The parser's declarations name the attributes that [main] reads *)

Lemma vars_follows_parser (args : RawArguments) :
  (vars args).*1 = map dest create_argument_parser.
Proof. reflexivity. Qed.

(** ** When the merge does not complete *)

Lemma setattr_final_ret k v ns s s' :
  final_args s = Some ns ->
  setattr_final k v s = (Ret tt, s') ->
  exists ns', s' = with_final_args ns' s.
Proof.
  intros Hs. unfold setattr_final.
  destruct k as [| | |key| |]; try discriminate.
  destruct (String.eqb key "__dict__").
  { destruct v as [| | | | |items]; try discriminate.
    rewrite (bind_ret_run _ _ _ _ _ (get_final_args_run _ _ Hs)).
    intros [= <-]. eauto. }
  destruct (String.eqb key "__class__"); [discriminate|].
  destruct (String.eqb key "__weakref__"); [discriminate|].
  rewrite (bind_ret_run _ _ _ _ _ (get_final_args_run _ _ Hs)).
  intros [= <-]. eauto.
Qed.

Lemma copy_loop_ret its : forall ns s s',
  final_args s = Some ns ->
  for_each its (fun kv => setattr_final (fst kv) (snd kv)) s = (Ret tt, s') ->
  exists ns', s' = with_final_args ns' s.
Proof.
  induction its as [|[k v] its IH]; intros ns s s' Hs Hrun.
  - injection Hrun as <-. exists ns.
    symmetry. apply with_final_args_same. exact Hs.
  - cbn [for_each fst snd] in Hrun. rewrite bind_run in Hrun.
    destruct (setattr_final k v s) as [[[]|c|e] s1] eqn:E;
      try discriminate Hrun.
    destruct (setattr_final_ret _ _ _ _ _ Hs E) as [ns1 ->].
    destruct (IH ns1 (with_final_args ns1 s) s' eq_refl Hrun) as [ns' ->].
    exists ns'. reflexivity.
Qed.

Lemma copy_loop_stops pre k v post : forall ns s,
  final_args s = Some ns ->
  plain_keys pre ->
  is_str k = false ->
  for_each (pre ++ (k, v) :: post)
    (fun kv => setattr_final (fst kv) (snd kv)) s
  = (Raise TypeError, with_final_args (file_layer pre ns) s).
Proof.
  induction pre as [|[k' v'] pre IH]; intros ns s Hs Hpre Hk.
  - cbn [app for_each fst snd]. rewrite bind_run.
    change (file_layer [] ns) with ns.
    rewrite (with_final_args_same _ _ Hs).
    destruct k; try discriminate Hk; reflexivity.
  - inversion Hpre as [|? ? Hk' Hpre']; subst. simpl in Hk'.
    destruct (plain_key_inv k' Hk') as (key & -> & Hkey).
    cbn [app for_each fst snd].
    step (setattr_final_run key v' ns s Hs Hkey).
    rewrite (IH (setattr ns key v') (with_final_args (setattr ns key v') s));
      [reflexivity | reflexivity | assumption | assumption].
Qed.

Lemma reconcile_ret cfg args s s' :
  reconcile cfg args s = (Ret tt, s') ->
  exists ns0, s' = with_final_args (cli_layer (vars args) ns0) s.
Proof.
  unfold reconcile. intros Hrun.
  rewrite (bind_ret_run _ _ s tt (with_final_args ∅ s)) in Hrun
    by reflexivity.
  rewrite bind_run in Hrun. unfold copy_file_config in Hrun.
  destruct cfg as [| | | | |its]; try discriminate Hrun.
  rewrite (bind_ret_run _ _ (with_final_args ∅ s) its (with_final_args ∅ s))
    in Hrun by reflexivity.
  destruct (for_each its _ (with_final_args ∅ s)) as [[[]|c|e] s1] eqn:E;
    try discriminate Hrun.
  destruct (copy_loop_ret its ∅ (with_final_args ∅ s) s1 eq_refl E)
    as [ns0 ->].
  unfold overlay_arguments in Hrun.
  rewrite (overlay_loop_run (vars args) ns0
             (with_final_args ns0 (with_final_args ∅ s)) eq_refl
             (vars_not_special args)) in Hrun.
  injection Hrun as <-. exists ns0. reflexivity.
Qed.

Lemma with_final_args_inj ns ns' s :
  with_final_args ns s = with_final_args ns' s -> ns = ns'.
Proof. intros H. injection H. auto. Qed.

(** Whatever the file, the merged namespace is the command line laid
    over what the file left. *)
Lemma merged_inv w args ns :
  merged w args ns ->
  exists ns0, ns = cli_layer (vars args) ns0.
Proof.
  intros (cfg & _ & Hrec).
  destruct (reconcile_ret _ _ _ _ Hrec) as [ns0 H].
  exists ns0. apply (with_final_args_inj _ _ after_banner). exact H.
Qed.

Lemma load_config_from_file_ret w args s cfg s' :
  load_config_from_file w args s = (Ret cfg, s') -> s' = s.
Proof.
  rewrite load_config_from_file_run.
  destruct (config args) as [path|]; [|congruence].
  destruct (truthy (VStr path)); [|congruence].
  destruct (os_path_exists w path); [|discriminate].
  destruct (yaml_safe_load w path); [discriminate | congruence].
Qed.

(** The engine is built only in runs that got through the merge. *)
Lemma engine_started_merged w args e :
  engine_input (snd (run w args)) = Some e ->
  exists ns, merged w args ns.
Proof.
  intros He. unfold merged.
  destruct (load_config_from_file w args after_banner)
    as [[cfg|c|x] s1] eqn:Hload.
  - pose proof (load_config_from_file_ret _ _ _ _ _ Hload) as ->.
    destruct (reconcile cfg args after_banner) as [[[]|c|x] s2] eqn:Hrec.
    + destruct (reconcile_ret _ _ _ _ Hrec) as [ns0 ->].
      exists (cli_layer (vars args) ns0), cfg.
      split; [reflexivity | exact Hrec].
    + exfalso. unfold run, main in He.
      rewrite (bind_ret_run _ _ initial tt after_banner) in He by reflexivity.
      rewrite (bind_ret_run _ _ _ _ _ Hload) in He.
      rewrite bind_run, Hrec in He.
      pose proof (proj1 (silent_reconcile cfg args after_banner)) as Hs.
      rewrite Hrec in Hs. simpl in He, Hs. congruence.
    + exfalso. unfold run, main in He.
      rewrite (bind_ret_run _ _ initial tt after_banner) in He by reflexivity.
      rewrite (bind_ret_run _ _ _ _ _ Hload) in He.
      rewrite bind_run, Hrec in He.
      pose proof (proj1 (silent_reconcile cfg args after_banner)) as Hs.
      rewrite Hrec in Hs. simpl in He, Hs. congruence.
  - exfalso. unfold run, main in He.
    rewrite (bind_ret_run _ _ initial tt after_banner) in He by reflexivity.
    rewrite bind_run, Hload in He.
    pose proof (proj1 (silent_load_config_from_file w args after_banner)) as Hs.
    rewrite Hload in Hs. simpl in He, Hs. congruence.
  - exfalso. unfold run, main in He.
    rewrite (bind_ret_run _ _ initial tt after_banner) in He by reflexivity.
    rewrite bind_run, Hload in He.
    pose proof (proj1 (silent_load_config_from_file w args after_banner)) as Hs.
    rewrite Hload in Hs. simpl in He, Hs. congruence.
Qed.

Lemma required_verdict_None ns :
  required_verdict ns = None <->
  truthy (getattr ns "target" VNone) = true
  /\ truthy (getattr ns "method" VNone) = true
  /\ (py_eq_str (getattr ns "method" VNone) "mixed" = true ->
      truthy (getattr ns "attacks" VNone) = true).
Proof.
  unfold required_verdict.
  destruct (truthy (getattr ns "target" VNone));
    destruct (truthy (getattr ns "method" VNone));
    destruct (py_eq_str (getattr ns "method" VNone) "mixed");
    destruct (truthy (getattr ns "attacks" VNone)); cbn;
    split; try discriminate; try tauto;
    intros (? & ? & H); try discriminate; specialize (H eq_refl);
    discriminate.
Qed.

Lemma defaulted_has_defaults ns :
  is_Some (defaulted ns !! "connections")
  /\ is_Some (defaulted ns !! "duration")
  /\ is_Some (defaulted ns !! "stealth").
Proof.
  repeat split.
  - destruct (ns !! "connections") eqn:E.
    + rewrite (defaulted_set _ _ _ E). eauto.
    + rewrite (defaulted_unset _ _ E). eauto.
  - destruct (ns !! "duration") eqn:E.
    + rewrite (defaulted_set _ _ _ E). eauto.
    + rewrite (defaulted_unset _ _ E). eauto.
  - destruct (ns !! "stealth") eqn:E.
    + rewrite (defaulted_set _ _ _ E). eauto.
    + rewrite (defaulted_unset _ _ E). eauto.
Qed.

Lemma truthy_py_ne_pass c h :
  truthy c = true ->
  py_ne_hostname c h = false ->
  exists host, h = Some host /\ c = VStr host.
Proof.
  intros Ht Hne. destruct h as [host|]; simpl in Hne.
  - destruct c; simpl in Hne; try discriminate.
    apply negb_false_iff, String.eqb_eq in Hne. subst. eauto.
  - destruct c; simpl in *; discriminate.
Qed.

(** ** What the engine is given *)

(** X1.  In every run, whatever the files and the command line, the
    engine is built only with a namespace that has passed every check:
    a truthy target and a truthy method, attacks when the method is
    [mixed], the three defaulted attributes, and, when the target is a
    string, a hostname from [urlparse] and a confirmation that is falsy
    or is that hostname.  That namespace is [final_args] itself. *)
Theorem engine_only_after_validation (w : World) (args : RawArguments)
  (e : namespace) :
  engine_input (snd (run w args)) = Some e ->
  final_args (snd (run w args)) = Some e
  /\ truthy (getattr e "target" VNone) = true
  /\ truthy (getattr e "method" VNone) = true
  /\ (py_eq_str (getattr e "method" VNone) "mixed" = true ->
      truthy (getattr e "attacks" VNone) = true)
  /\ is_Some (e !! "connections")
  /\ is_Some (e !! "duration")
  /\ is_Some (e !! "stealth")
  /\ (forall url,
         e !! "target" = Some (VStr url) ->
         exists h,
           urlparse_hostname w url = UrlHost h
           /\ (truthy (getattr e "confirm_target" VNone) = true ->
               exists host,
                 h = Some host
                 /\ e !! "confirm_target" = Some (VStr host))).
Proof.
  intros He.
  destruct (engine_started_merged w args e He) as [ns Hm].
  pose proof (engine_input_defaulted w args ns e Hm He) as ->.
  unfold run in He |- *. rewrite (main_merged w args ns Hm) in He |- *.
  destruct (required_verdict ns) eqn:Hv; [discriminate He|].
  apply required_verdict_None in Hv as (Ht & Hmeth & Hatt).
  unfold bootstrap in He |- *.
  destruct (defaulted ns !! "target") as [[| | |url| |]|] eqn:Htar;
    try discriminate He.
  destruct (urlparse_hostname w url) as [|h] eqn:Hu; [discriminate He|].
  cbv zeta in He |- *.
  destruct (truthy (getattr (defaulted ns) "confirm_target" VNone)
            && py_ne_hostname (getattr (defaulted ns) "confirm_target" VNone) h)
    eqn:Hc; [discriminate He|].
  split.
  { destruct (engine_run w (defaulted ns)) as [| | |[| |]|]; reflexivity. }
  rewrite !(defaulted_getattr ns "target"), !(defaulted_getattr ns "method"),
    !(defaulted_getattr ns "attacks") by discriminate.
  split; [assumption|]. split; [assumption|]. split; [assumption|].
  destruct (defaulted_has_defaults ns) as (H1 & H2 & H3).
  split; [assumption|]. split; [assumption|]. split; [assumption|].
  intros url' [= <-]. exists h. split; [exact Hu|].
  intros Hc'. rewrite Hc' in Hc. cbn [andb] in Hc.
  destruct (truthy_py_ne_pass _ _ Hc' Hc) as (host & -> & Hcv).
  exists host. split; [reflexivity|].
  rewrite <- Hcv. apply truthy_getattr. assumption.
Qed.

Lemma engine_only_after_validation_witness :
  let w := bare_world EngineReturns in
  let args := cli_confirm "http://Good.com/a" Slowloris "good.com" in
  let e := defaulted (cli_layer (vars args) ∅) in
  final_args (snd (run w args)) = Some e
  /\ truthy (getattr e "target" VNone) = true
  /\ truthy (getattr e "method" VNone) = true
  /\ (py_eq_str (getattr e "method" VNone) "mixed" = true ->
      truthy (getattr e "attacks" VNone) = true)
  /\ is_Some (e !! "connections")
  /\ is_Some (e !! "duration")
  /\ is_Some (e !! "stealth")
  /\ (forall url,
         e !! "target" = Some (VStr url) ->
         exists h,
           urlparse_hostname w url = UrlHost h
           /\ (truthy (getattr e "confirm_target" VNone) = true ->
               exists host,
                 h = Some host
                 /\ e !! "confirm_target" = Some (VStr host))).
Proof.
  apply engine_only_after_validation. vm_compute. reflexivity.
Defined.

(** X2.  Once the engine has been built, its outcome alone decides how
    the process ends.  A normal return prints the success line, status
    0.  A [KeyboardInterrupt] prints nothing, status 0.  An [Exception]
    prints its message on standard error, status 1.  A [SystemExit] is
    not caught: [main] prints nothing and the process ends as the
    [SystemExit] says (its integer, 0 for [None], or its text on
    standard error and 1).  Any other [BaseException] is not caught
    either: traceback and status 1. *)
Theorem engine_outcome_decides (w : World) (args : RawArguments)
  (e : namespace) :
  engine_input (snd (run w args)) = Some e ->
  match engine_run w e with
  | EngineReturns =>
      fst (run w args) = 0%Z
      /\ output (snd (run w args)) = [MsgDisclaimer; MsgSuccess]
  | EngineKeyboardInterrupt =>
      fst (run w args) = 0%Z
      /\ output (snd (run w args)) = [MsgDisclaimer]
  | EngineRaises msg =>
      fst (run w args) = 1%Z
      /\ output (snd (run w args)) = [MsgDisclaimer; MsgUnexpected msg]
  | EngineSystemExit (ExitStatus n) =>
      fst (run w args) = n
      /\ output (snd (run w args)) = [MsgDisclaimer]
  | EngineSystemExit ExitNone =>
      fst (run w args) = 0%Z
      /\ output (snd (run w args)) = [MsgDisclaimer]
  | EngineSystemExit (ExitObject text) =>
      fst (run w args) = 1%Z
      /\ output (snd (run w args)) = [MsgDisclaimer; MsgExitObject text]
  | EngineRaisesBase =>
      fst (run w args) = 1%Z
      /\ output (snd (run w args))
         = [MsgDisclaimer; MsgTraceback EngineBaseException]
  end.
Proof.
  intros He.
  destruct (engine_started_merged w args e He) as [ns Hm].
  pose proof (engine_input_defaulted w args ns e Hm He) as ->.
  unfold run in He |- *. rewrite (main_merged w args ns Hm) in He |- *.
  destruct (required_verdict ns); [discriminate He|].
  unfold bootstrap in He |- *.
  destruct (defaulted ns !! "target") as [[| | |url| |]|];
    try discriminate He.
  destruct (urlparse_hostname w url) as [|h]; [discriminate He|].
  cbv zeta in He |- *.
  destruct (_ && _); [discriminate He|].
  destruct (engine_run w (defaulted ns)) as [| | |[| |]|]; split; reflexivity.
Qed.

Lemma engine_outcome_decides_witness :
  fst (run (bare_world (EngineSystemExit (ExitStatus 3)))
         (cli "http://good.com" HttpFlood)) = 3%Z
  /\ output (snd (run (bare_world (EngineSystemExit (ExitStatus 3)))
                    (cli "http://good.com" HttpFlood)))
     = [MsgDisclaimer].
Proof.
  apply (engine_outcome_decides
           (bare_world (EngineSystemExit (ExitStatus 3)))
           (cli "http://good.com" HttpFlood)
           (defaulted (cli_layer (vars (cli "http://good.com" HttpFlood)) ∅))).
  vm_compute. reflexivity.
Defined.

(** ** What a run prints and how it ends *)





















(** ** Configuration files that do not give a mapping *)

Lemma run_after_load w args cfg :
  load_config_from_file w args after_banner = (Ret cfg, after_banner) ->
  main w args initial
  = (reconcile cfg args ;;
     check_required ;;
     apply_defaults ;;
     target_domain ← target_hostname w;
     check_confirm_target target_domain ;;
     run_engine w) after_banner.
Proof.
  intros Hload. unfold main.
  rewrite (bind_ret_run _ _ initial tt after_banner) by reflexivity.
  step Hload. reflexivity.
Qed.

(** X4.  When the file named by [--config] exists but cannot be opened
    or parsed, the exception is not caught: the process ends with a
    traceback and status 1 before [final_args] exists, and the engine is
    not built. *)
Theorem unreadable_config_file_crashes
  (w : World) (args : RawArguments) (path : string) :
  config args = Some path ->
  path <> "" ->
  os_path_exists w path = true ->
  yaml_safe_load w path = LoadRaises ->
  run w args = (1%Z, with_output [MsgTraceback LoadError] after_banner)
  /\ final_args (snd (run w args)) = None
  /\ engine_input (snd (run w args)) = None.
Proof.
  intros Hc Hp He Hl.
  assert (Hrun : run w args
                 = (1%Z, with_output [MsgTraceback LoadError] after_banner)).
  { unfold run, main.
    rewrite (bind_ret_run _ _ initial tt after_banner) by reflexivity.
    rewrite bind_run, load_config_from_file_run, Hc,
      (truthy_nonempty_path _ Hp), He, Hl.
    reflexivity. }
  rewrite Hrun. repeat split.
Qed.

(** A world whose only file is [path], which cannot be loaded. *)
Lemma unreadable_config_file_crashes_witness :
  let w := {| os_path_exists := fun p => String.eqb p "broken.yaml";
              yaml_safe_load := fun _ => LoadRaises;
              urlparse_hostname := UrlParse.hostname;
              engine_run := fun _ => EngineReturns |} in
  run w (cli_config "broken.yaml")
  = (1%Z, with_output [MsgTraceback LoadError] after_banner)
  /\ final_args (snd (run w (cli_config "broken.yaml"))) = None
  /\ engine_input (snd (run w (cli_config "broken.yaml"))) = None.
Proof.
  apply (unreadable_config_file_crashes _ _ "broken.yaml").
  - reflexivity.
  - discriminate.
  - reflexivity.
  - reflexivity.
Defined.

(** X5.  A document that loads as a falsy value (an empty file, [null],
    [false], [0], an empty string, sequence or mapping) is replaced by
    the empty mapping: the merged namespace holds the command line
    only, exactly as when no file is given. *)
Theorem falsy_document_is_empty_mapping
  (w : World) (args : RawArguments) (path : string) (doc : value) :
  config args = Some path ->
  path <> "" ->
  os_path_exists w path = true ->
  yaml_safe_load w path = Loaded doc ->
  truthy doc = false ->
  load_config_from_file w args after_banner = (Ret (VDict []), after_banner)
  /\ merged w args (cli_layer (vars args) ∅).
Proof.
  intros Hc Hp He Hl Hd.
  assert (Hload : load_config_from_file w args after_banner
                  = (Ret (VDict []), after_banner)).
  { rewrite load_config_from_file_run, Hc, (truthy_nonempty_path _ Hp),
      He, Hl. unfold py_or. rewrite Hd. reflexivity. }
  split; [exact Hload|].
  exists (VDict []). split; [exact Hload|].
  apply (reconcile_run [] args after_banner). constructor.
Qed.

Lemma falsy_document_is_empty_mapping_witness :
  let w := file_world "empty.yaml" VNone EngineReturns in
  let args :=
    {| target := Some "http://good.com"; method := Some HttpFlood;
       config := Some "empty.yaml"; attacks := None; connections := None;
       duration := None; confirm_target := None; stealth := false |} in
  load_config_from_file w args after_banner = (Ret (VDict []), after_banner)
  /\ merged w args (cli_layer (vars args) ∅).
Proof.
  apply (falsy_document_is_empty_mapping _ _ "empty.yaml" VNone).
  - reflexivity.
  - discriminate.
  - reflexivity.
  - reflexivity.
  - reflexivity.
Defined.

(** X6.  A document that loads as a truthy value other than a mapping (a
    non-empty sequence or string, a non-zero number, [true]) has no
    [items]: the process ends with a traceback and status 1, with
    [final_args] created but still empty, and the engine is not
    built. *)
Theorem non_mapping_document_crashes
  (w : World) (args : RawArguments) (path : string) (doc : value) :
  config args = Some path ->
  path <> "" ->
  os_path_exists w path = true ->
  yaml_safe_load w path = Loaded doc ->
  truthy doc = true ->
  (forall its, doc <> VDict its) ->
  run w args
  = (1%Z,
     with_output [MsgTraceback AttributeError]
       (with_final_args ∅ after_banner))
  /\ engine_input (snd (run w args)) = None.
Proof.
  intros Hc Hp He Hl Hd Hnd.
  assert (Hload : load_config_from_file w args after_banner
                  = (Ret doc, after_banner)).
  { rewrite load_config_from_file_run, Hc, (truthy_nonempty_path _ Hp),
      He, Hl. unfold py_or. rewrite Hd. reflexivity. }
  assert (Hrun : run w args
    = (1%Z,
       with_output [MsgTraceback AttributeError]
         (with_final_args ∅ after_banner))).
  { unfold run. rewrite (run_after_load w args doc Hload).
    rewrite bind_run. unfold reconcile.
    rewrite (bind_ret_run _ _ after_banner tt (with_final_args ∅ after_banner))
      by reflexivity.
    rewrite bind_run. unfold copy_file_config. rewrite bind_run.
    destruct doc as [| | | | |its]; try reflexivity.
    destruct (Hnd its). reflexivity. }
  rewrite Hrun. split; reflexivity.
Qed.

Lemma non_mapping_document_crashes_witness :
  let w := file_world "list.yaml"
             (VList [VStr "http://good.com"; VStr "http-flood"])
             EngineReturns in
  run w (cli_config "list.yaml")
  = (1%Z,
     with_output [MsgTraceback AttributeError]
       (with_final_args ∅ after_banner))
  /\ engine_input (snd (run w (cli_config "list.yaml"))) = None.
Proof.
  apply (non_mapping_document_crashes _ _ "list.yaml"
           (VList [VStr "http://good.com"; VStr "http-flood"])).
  - reflexivity.
  - discriminate.
  - reflexivity.
  - reflexivity.
  - reflexivity.
  - discriminate.
Defined.

(** X7.  A mapping with a key that is not a string stops the copy of
    lines 85-86 at that key with a [TypeError]: the plain keys before it
    have been copied, the keys after it and the whole command line have
    not, and the process ends with a traceback and status 1 without
    building the engine. *)
Theorem non_string_key_crashes
  (w : World) (args : RawArguments) (path : string)
  (pre post : list (value * value)) (k v : value) :
  config args = Some path ->
  path <> "" ->
  os_path_exists w path = true ->
  yaml_safe_load w path = Loaded (VDict (pre ++ (k, v) :: post)) ->
  plain_keys pre ->
  is_str k = false ->
  run w args
  = (1%Z,
     with_output [MsgTraceback TypeError]
       (with_final_args (file_layer pre ∅) after_banner))
  /\ engine_input (snd (run w args)) = None.
Proof.
  intros Hc Hp He Hl Hpre Hk.
  assert (Hload : load_config_from_file w args after_banner
                  = (Ret (VDict (pre ++ (k, v) :: post)), after_banner)).
  { rewrite load_config_from_file_run, Hc, (truthy_nonempty_path _ Hp),
      He, Hl. unfold py_or.
    destruct pre; reflexivity. }
  assert (Hrun : run w args
    = (1%Z,
       with_output [MsgTraceback TypeError]
         (with_final_args (file_layer pre ∅) after_banner))).
  { unfold run. rewrite (run_after_load w args _ Hload).
    rewrite bind_run. unfold reconcile.
    rewrite (bind_ret_run _ _ after_banner tt (with_final_args ∅ after_banner))
      by reflexivity.
    rewrite bind_run. unfold copy_file_config.
    rewrite (bind_ret_run _ _ (with_final_args ∅ after_banner)
               (pre ++ (k, v) :: post)%list (with_final_args ∅ after_banner))
      by reflexivity.
    rewrite (copy_loop_stops pre k v post ∅ (with_final_args ∅ after_banner)
               eq_refl Hpre Hk).
    reflexivity. }
  rewrite Hrun. split; reflexivity.
Qed.

Lemma non_string_key_crashes_witness :
  let doc := VDict ([(VStr "target", VStr "http://good.com")]
                    ++ (VInt 1, VStr "one")
                    :: [(VStr "method", VStr "http-flood")]) in
  let w := file_world "keys.yaml" doc EngineReturns in
  run w (cli_config "keys.yaml")
  = (1%Z,
     with_output [MsgTraceback TypeError]
       (with_final_args
          (file_layer [(VStr "target", VStr "http://good.com")] ∅)
          after_banner))
  /\ engine_input (snd (run w (cli_config "keys.yaml"))) = None.
Proof.
  apply (non_string_key_crashes _ _ "keys.yaml"
           [(VStr "target", VStr "http://good.com")]
           [(VStr "method", VStr "http-flood")]
           (VInt 1) (VStr "one")).
  - reflexivity.
  - discriminate.
  - reflexivity.
  - reflexivity.
  - repeat constructor.
  - reflexivity.
Defined.

(** ** More on the merge *)

Lemma file_layer_origin its : forall ns k v,
  file_layer its ns !! k = Some v ->
  (VStr k, v) ∈ its \/ ns !! k = Some v.
Proof.
  induction its as [|[k' v'] its IH]; intros ns k v H; [right; exact H|].
  unfold file_layer in H. cbn [fold_left fst snd] in H.
  destruct k' as [| | |key| |];
    try (destruct (IH _ _ _ H) as [Hin|Hns];
         [left; right; exact Hin | right; exact Hns]).
  fold (file_layer its (setattr ns key v')) in H.
  destruct (IH _ _ _ H) as [Hin|Hns]; [left; right; exact Hin|].
  unfold setattr in Hns. destruct (decide (key = k)) as [->|Hne].
  - rewrite lookup_insert_eq in Hns. injection Hns as ->. left. left.
  - rewrite lookup_insert_ne in Hns by assumption. right. exact Hns.
Qed.

Lemma cli_layer_origin l : forall ns k v,
  cli_layer l ns !! k = Some v ->
  ((k, v) ∈ l /\ overrides v = true) \/ ns !! k = Some v.
Proof.
  induction l as [|[k' v'] l IH]; intros ns k v H; [right; exact H|].
  unfold cli_layer in H. cbn [fold_left fst snd] in H.
  destruct (overrides v') eqn:Hv.
  - fold (cli_layer l (setattr ns k' v')) in H.
    destruct (IH _ _ _ H) as [[Hin Ho]|Hns];
      [left; split; [right; exact Hin | exact Ho]|].
    unfold setattr in Hns. destruct (decide (k' = k)) as [->|Hne].
    + rewrite lookup_insert_eq in Hns. injection Hns as ->.
      left. split; [left | exact Hv].
    + rewrite lookup_insert_ne in Hns by assumption. right. exact Hns.
  - fold (cli_layer l ns) in H.
    destruct (IH _ _ _ H) as [[Hin Ho]|Hns];
      [left; split; [right; exact Hin | exact Ho] | right; exact Hns].
Qed.

Lemma overrides_spec v :
  overrides v = true <-> v <> VNone /\ v <> VBool false.
Proof.
  destruct v as [|[|]| | | |]; cbn; split;
    try (intros _; split; discriminate);
    try discriminate;
    intros [H1 H2]; try reflexivity; congruence.
Qed.

(** X8.  A value that the file sets for a key is kept by the merge and
    by the defaults whenever the command line has nothing to put over
    it, that is, its value for that key is [None] or [False] or the key
    is no argument of the parser at all.  This holds for every file
    value, falsy ones and [null] included, and for keys the parser does
    not know. *)
Theorem file_value_kept
  (its : list (value * value)) (args : RawArguments) (k : string)
  (v : value) (s : process) :
  string_keyed its ->
  (VStr k, v) ∈ its ->
  (forall u, (k, u) ∈ vars args -> u = VNone \/ u = VBool false) ->
  exists ns ns',
    reconcile (VDict its) args s = (Ret tt, with_final_args ns s)
    /\ ns !! k = Some v
    /\ apply_defaults (with_final_args ns s) = (Ret tt, with_final_args ns' s)
    /\ ns' !! k = Some v.
Proof.
  intros [Hstr Hnd] Hfile Hcli.
  set (ns := cli_layer (vars args) (file_layer its ∅)).
  assert (Hk : ns !! k = Some v).
  { unfold ns. rewrite cli_layer_skipped.
    - apply file_layer_present; assumption.
    - intros u Hu. destruct (Hcli u Hu) as [-> | ->]; reflexivity. }
  exists ns, (defaulted ns). repeat split.
  - apply reconcile_run. assumption.
  - exact Hk.
  - apply (apply_defaults_run ns (with_final_args ns s)). reflexivity.
  - apply defaulted_set. exact Hk.
Qed.

Lemma file_value_kept_witness :
  exists ns ns',
    reconcile
      (VDict [(VStr "connections", VNone); (VStr "rate_limit", VInt 0)])
      (cli "http://good.com" HttpFlood) initial
    = (Ret tt, with_final_args ns initial)
    /\ ns !! "connections" = Some VNone
    /\ apply_defaults (with_final_args ns initial)
       = (Ret tt, with_final_args ns' initial)
    /\ ns' !! "connections" = Some VNone.
Proof.
  apply file_value_kept.
  - split; [repeat constructor | distinct_keys].
  - left.
  - intros u Hu. simpl in Hu.
    repeat (apply elem_of_cons in Hu as [Hu|Hu];
            [first [discriminate Hu | injection Hu as ->; auto]|]).
    inversion Hu.
Defined.

(** X9.  The merge and the defaults invent nothing: every attribute of
    the merged namespace is an item of the file or an argument of the
    command line whose value is neither [None] nor [False], and the
    defaults add at most [connections = 100], [duration = 60] and
    [stealth = False]. *)
Theorem merged_attributes_have_a_source
  (its : list (value * value)) (args : RawArguments) (s : process) :
  plain_keys its ->
  exists ns ns',
    reconcile (VDict its) args s = (Ret tt, with_final_args ns s)
    /\ apply_defaults (with_final_args ns s) = (Ret tt, with_final_args ns' s)
    /\ (forall k v,
           ns !! k = Some v ->
           ((k, v) ∈ vars args /\ v <> VNone /\ v <> VBool false)
           \/ (VStr k, v) ∈ its)
    /\ (forall k v,
           ns' !! k = Some v ->
           ns !! k = Some v
           \/ (k = "connections" /\ v = VInt 100)
           \/ (k = "duration" /\ v = VInt 60)
           \/ (k = "stealth" /\ v = VBool false)).
Proof.
  intros Hstr.
  set (ns := cli_layer (vars args) (file_layer its ∅)).
  exists ns, (defaulted ns). repeat split.
  - apply reconcile_run. assumption.
  - apply (apply_defaults_run ns (with_final_args ns s)). reflexivity.
  - intros k v H. destruct (cli_layer_origin _ _ _ _ H) as [[Hin Ho]|Hf].
    + left. split; [exact Hin|]. apply overrides_spec. exact Ho.
    + destruct (file_layer_origin _ _ _ _ Hf) as [Hin|He];
        [right; exact Hin|].
      rewrite lookup_empty in He. discriminate.
  - intros k v H. destruct (ns !! k) as [x|] eqn:E.
    + rewrite (defaulted_set _ _ _ E) in H. left. exact H.
    + rewrite (defaulted_unset _ _ E) in H.
      repeat case_decide; try discriminate; injection H as <-; subst; auto.
Qed.

Lemma with_final_args_eq ns ns' s :
  ns = ns' -> with_final_args ns s = with_final_args ns' s.
Proof. intros ->. reflexivity. Qed.

(** X10.  The order of the keys in the file does not matter: two
    mappings with the same items, string keys and no key twice merge
    with the command line into the same namespace. *)
Theorem file_order_is_irrelevant
  (its its' : list (value * value)) (args : RawArguments) (s : process) :
  string_keyed its ->
  its ≡ₚ its' ->
  reconcile (VDict its) args s = reconcile (VDict its') args s.
Proof.
  intros [Hstr Hnd] Hperm.
  assert (Hstr' : plain_keys its').
  { unfold plain_keys. rewrite <- Hperm. exact Hstr. }
  assert (Hnd' : NoDup (its'.*1)).
  { rewrite <- Hperm. exact Hnd. }
  rewrite (reconcile_run its args s Hstr), (reconcile_run its' args s Hstr').
  f_equal. apply with_final_args_eq. f_equal.
  apply map_eq. intros k.
  destruct (file_layer its ∅ !! k) as [v|] eqn:E.
  - destruct (file_layer_origin _ _ _ _ E) as [Hin|He].
    + symmetry. apply file_layer_present; [exact Hnd'|].
      rewrite <- Hperm. exact Hin.
    + rewrite lookup_empty in He. discriminate.
  - destruct (file_layer its' ∅ !! k) as [v|] eqn:E'; [|reflexivity].
    destruct (file_layer_origin _ _ _ _ E') as [Hin|He].
    + rewrite <- Hperm in Hin.
      rewrite (file_layer_present its ∅ k v Hnd Hin) in E. discriminate.
    + rewrite lookup_empty in He. discriminate.
Qed.

Lemma file_order_is_irrelevant_witness :
  reconcile
    (VDict [(VStr "target", VStr "http://good.com");
            (VStr "method", VStr "slowloris")])
    no_arguments initial
  = reconcile
      (VDict [(VStr "method", VStr "slowloris");
              (VStr "target", VStr "http://good.com")])
      no_arguments initial.
Proof.
  apply file_order_is_irrelevant.
  - split; [repeat constructor | distinct_keys].
  - apply perm_swap.
Defined.

(** X11.  For [stealth] the two sources combine as a disjunction: with
    a boolean in the file the resolved value is the file's value or the
    flag; with no [stealth] in the file it is the flag.  So the flag can
    switch stealth on and nothing on the command line can switch it
    off. *)
Theorem stealth_is_file_or_flag
  (its : list (value * value)) (args : RawArguments) (s : process) :
  string_keyed its ->
  exists ns ns',
    reconcile (VDict its) args s = (Ret tt, with_final_args ns s)
    /\ apply_defaults (with_final_args ns s) = (Ret tt, with_final_args ns' s)
    /\ (forall b : bool,
           (VStr "stealth", VBool b) ∈ its ->
           ns' !! "stealth" = Some (VBool (b || stealth args)))
    /\ (VStr "stealth" ∉ its.*1 ->
        ns' !! "stealth" = Some (VBool (stealth args))).
Proof.
  intros [Hstr Hnd].
  set (ns := cli_layer (vars args) (file_layer its ∅)).
  assert (Hflag : ("stealth", VBool (stealth args)) ∈ vars args).
  { unfold vars. do 7 right. left. }
  assert (Hon : stealth args = true -> ns !! "stealth" = Some (VBool true)).
  { intros Hs. pose proof Hflag as Hin. rewrite Hs in Hin.
    unfold ns. apply cli_layer_taken;
      [apply vars_NoDup | exact Hin | reflexivity]. }
  assert (Hoff : stealth args = false ->
                 ns !! "stealth" = file_layer its ∅ !! "stealth").
  { intros Hs. unfold ns. apply cli_layer_skipped. intros u Hu.
    rewrite <- (unique_binding _ _ _ _ (vars_NoDup args) Hflag Hu), Hs.
    reflexivity. }
  exists ns, (defaulted ns). repeat split.
  - apply reconcile_run. assumption.
  - apply (apply_defaults_run ns (with_final_args ns s)). reflexivity.
  - intros b Hin. destruct (stealth args) eqn:Hs.
    + rewrite orb_true_r. apply defaulted_set. apply Hon. reflexivity.
    + rewrite orb_false_r. apply defaulted_set. rewrite (Hoff eq_refl).
      apply file_layer_present; assumption.
  - intros Hnot. destruct (stealth args) eqn:Hs.
    + apply defaulted_set. apply Hon. reflexivity.
    + rewrite defaulted_unset; [reflexivity|].
      rewrite (Hoff eq_refl), file_layer_absent by assumption.
      apply lookup_empty.
Qed.

Lemma stealth_is_file_or_flag_witness :
  exists ns ns',
    reconcile (VDict [(VStr "stealth", VBool true)])
      (cli "http://good.com" HttpFlood) initial
    = (Ret tt, with_final_args ns initial)
    /\ apply_defaults (with_final_args ns initial)
       = (Ret tt, with_final_args ns' initial)
    /\ (forall b : bool,
           (VStr "stealth", VBool b) ∈ [(VStr "stealth", VBool true)] ->
           ns' !! "stealth"
           = Some (VBool (b || stealth (cli "http://good.com" HttpFlood))))
    /\ (VStr "stealth" ∉ [(VStr "stealth", VBool true)].*1 ->
        ns' !! "stealth"
        = Some (VBool (stealth (cli "http://good.com" HttpFlood)))).
Proof.
  apply stealth_is_file_or_flag.
  split; [repeat constructor | distinct_keys].
Defined.

Lemma merged_attributes_have_a_source_witness :
  exists ns ns',
    reconcile (VDict [(VStr "method", VStr "slowloris")])
      (cli "http://good.com" HttpFlood) initial
    = (Ret tt, with_final_args ns initial)
    /\ apply_defaults (with_final_args ns initial)
       = (Ret tt, with_final_args ns' initial)
    /\ (forall k v,
           ns !! k = Some v ->
           ((k, v) ∈ vars (cli "http://good.com" HttpFlood)
            /\ v <> VNone /\ v <> VBool false)
           \/ (VStr k, v) ∈ [(VStr "method", VStr "slowloris")])
    /\ (forall k v,
           ns' !! k = Some v ->
           ns !! k = Some v
           \/ (k = "connections" /\ v = VInt 100)
           \/ (k = "duration" /\ v = VInt 60)
           \/ (k = "stealth" /\ v = VBool false)).
Proof.
  apply merged_attributes_have_a_source. repeat constructor.
Defined.

(** ** More on validation and bootstrap *)



(** X13.  A target from the file that is a boolean, an integer, a
    sequence or a mapping, and truthy so that it passes line 92, has no
    [decode] for [urlparse] to call: the process ends with an
    [AttributeError] traceback and status 1 after the defaults have
    been applied, and the engine is not built. *)
Theorem non_string_target_crashes
  (w : World) (args : RawArguments) (ns : namespace) (v : value) :
  merged w args ns ->
  required_verdict ns = None ->
  ns !! "target" = Some v ->
  (exists b, v = VBool b) \/ (exists z, v = VInt z)
  \/ (exists l, v = VList l) \/ (exists d, v = VDict d) ->
  run w args
  = (1%Z,
     with_output [MsgTraceback AttributeError]
       (with_final_args (defaulted ns) after_banner))
  /\ engine_input (snd (run w args)) = None.
Proof.
  intros Hm Hv Ht Hs.
  assert (Hrun : run w args
    = (1%Z,
       with_output [MsgTraceback AttributeError]
         (with_final_args (defaulted ns) after_banner))).
  { rewrite (run_validated w args ns Hm Hv). unfold bootstrap.
    rewrite (defaulted_target ns v Ht).
    destruct Hs as [[b ->] | [[z ->] | [[l ->] | [d ->]]]]; reflexivity. }
  rewrite Hrun. split; reflexivity.
Qed.

Lemma non_string_target_crashes_witness :
  let doc := VDict [(VStr "target", VInt 8080);
                    (VStr "method", VStr "http-flood")] in
  let w := file_world "config.yaml" doc EngineReturns in
  let ns := cli_layer (vars (cli_config "config.yaml"))
              (file_layer [(VStr "target", VInt 8080);
                           (VStr "method", VStr "http-flood")] ∅) in
  run w (cli_config "config.yaml")
  = (1%Z,
     with_output [MsgTraceback AttributeError]
       (with_final_args (defaulted ns) after_banner))
  /\ engine_input (snd (run w (cli_config "config.yaml"))) = None.
Proof.
  apply (non_string_target_crashes _ _ _ (VInt 8080)).
  - apply (merged_with_file _ _ "config.yaml").
    + reflexivity.
    + discriminate.
    + reflexivity.
    + reflexivity.
    + repeat constructor.
  - vm_compute. reflexivity.
  - vm_compute. reflexivity.
  - right. left. exists 8080%Z. reflexivity.
Defined.

(** X14.  The target is parsed on line 102 whether or not a confirmation
    was given: a target that [urlparse] refuses ends the process with a
    traceback and status 1, and the engine is not built. *)
Theorem unparsable_target_crashes
  (w : World) (args : RawArguments) (ns : namespace) (url : string) :
  merged w args ns ->
  required_verdict ns = None ->
  ns !! "target" = Some (VStr url) ->
  urlparse_hostname w url = UrlRaises ->
  run w args
  = (1%Z,
     with_output [MsgTraceback ValueError]
       (with_final_args (defaulted ns) after_banner))
  /\ engine_input (snd (run w args)) = None.
Proof.
  intros Hm Hv Ht Hu.
  assert (Hrun : run w args
    = (1%Z,
       with_output [MsgTraceback ValueError]
         (with_final_args (defaulted ns) after_banner))).
  { rewrite (run_validated w args ns Hm Hv). unfold bootstrap.
    rewrite (defaulted_target ns _ Ht), Hu. reflexivity. }
  rewrite Hrun. split; reflexivity.
Qed.

Lemma unparsable_target_crashes_witness :
  let args := cli "http://[::1/" HttpFlood in
  let ns := cli_layer (vars args) ∅ in
  run (bare_world EngineReturns) args
  = (1%Z,
     with_output [MsgTraceback ValueError]
       (with_final_args (defaulted ns) after_banner))
  /\ engine_input (snd (run (bare_world EngineReturns) args)) = None.
Proof.
  apply (unparsable_target_crashes _ _ _ "http://[::1/").
  - apply merged_without_file. reflexivity.
  - vm_compute. reflexivity.
  - vm_compute. reflexivity.
  - reflexivity.
Defined.

(** X15.  An empty string given as target on the command line is neither
    [None] nor [False], so it replaces the target of the file; the run
    then fails the check of line 92 and ends with the usage complaint
    and status 2, whatever the file holds. *)
Theorem empty_cli_target_masks_file
  (w : World) (args : RawArguments) (ns : namespace) :
  merged w args ns ->
  target args = Some "" ->
  ns !! "target" = Some (VStr "")
  /\ run w args
     = (2%Z,
        with_output [MsgUsage MissingRequiredArgument]
          (with_final_args ns after_banner)).
Proof.
  intros Hm Ht.
  destruct (merged_inv w args ns Hm) as (ns0 & ->).
  assert (Hk : cli_layer (vars args) ns0 !! "target" = Some (VStr "")).
  { apply cli_layer_taken; [apply vars_NoDup | | reflexivity].
    unfold vars. rewrite Ht. left. }
  split; [exact Hk|].
  apply run_usage_error; [exact Hm|].
  unfold required_verdict, getattr. rewrite Hk. reflexivity.
Qed.

Lemma empty_cli_target_masks_file_witness :
  let doc := [(VStr "target", VStr "http://good.com");
              (VStr "method", VStr "http-flood")] in
  let w := file_world "config.yaml" (VDict doc) EngineReturns in
  let args :=
    {| target := Some ""; method := None; config := Some "config.yaml";
       attacks := None; connections := None; duration := None;
       confirm_target := None; stealth := false |} in
  let ns := cli_layer (vars args) (file_layer doc ∅) in
  ns !! "target" = Some (VStr "")
  /\ run w args
     = (2%Z,
        with_output [MsgUsage MissingRequiredArgument]
          (with_final_args ns after_banner)).
Proof.
  apply empty_cli_target_masks_file.
  - apply (merged_with_file _ _ "config.yaml").
    + reflexivity.
    + discriminate.
    + reflexivity.
    + reflexivity.
    + repeat constructor.
  - reflexivity.
Defined.

(** X16.  For a merged configuration [main] ends in [parser.error],
    with the usage complaint as its one message and status 2, exactly
    when the target or the method is missing or empty, or the method is
    [mixed] without attacks.  Nothing else is a usage error: in
    particular a method that comes from the file is not compared with
    the parser's choices. *)
Theorem usage_error_iff
  (w : World) (args : RawArguments) (ns : namespace) :
  merged w args ns ->
  ((exists c, output (snd (run w args)) = [MsgDisclaimer; MsgUsage c])
   <-> (truthy (getattr ns "target" VNone) = false
        \/ truthy (getattr ns "method" VNone) = false
        \/ (py_eq_str (getattr ns "method" VNone) "mixed" = true
            /\ truthy (getattr ns "attacks" VNone) = false)))
  /\ ((exists c, output (snd (run w args)) = [MsgDisclaimer; MsgUsage c]) ->
      fst (run w args) = 2%Z).
Proof.
  intros Hm. destruct (required_verdict ns) as [c|] eqn:Hv.
  - rewrite (run_usage_error w args ns c Hm Hv).
    split; [|intros _; reflexivity].
    split; [|intros _; exists c; reflexivity].
    intros _. unfold required_verdict in Hv.
    destruct (truthy (getattr ns "target" VNone)); [|auto].
    destruct (truthy (getattr ns "method" VNone)); [|auto].
    destruct (py_eq_str (getattr ns "method" VNone) "mixed"); [|discriminate].
    destruct (truthy (getattr ns "attacks" VNone)); [discriminate|auto].
  - pose proof (proj1 (required_verdict_None ns) Hv) as (Ht & Hme & Ha).
    assert (Hno : ~ exists c,
               output (snd (run w args)) = [MsgDisclaimer; MsgUsage c]).
    { rewrite (run_validated w args ns Hm Hv). unfold bootstrap.
      destruct (defaulted ns !! "target") as [[| | |url| |]|];
        try (intros [c Hc]; discriminate Hc).
      destruct (urlparse_hostname w url);
        [intros [c Hc]; discriminate Hc|].
      cbv zeta. destruct (_ && _); [intros [c Hc]; discriminate Hc|].
      destruct (engine_run w (defaulted ns)) as [| | |[| |]|];
        intros [c Hc]; discriminate Hc. }
    split; [|intros H; destruct (Hno H)].
    split; [intros H; destruct (Hno H)|].
    intros [H | [H | [H1 H2]]]; try congruence.
    rewrite (Ha H1) in H2. discriminate.
Qed.

Lemma usage_error_iff_witness :
  let doc := [(VStr "target", VStr "http://good.com");
              (VStr "method", VStr "bogus")] in
  let w := file_world "config.yaml" (VDict doc) EngineReturns in
  let args := cli_config "config.yaml" in
  let ns := cli_layer (vars args) (file_layer doc ∅) in
  ((exists c, output (snd (run w args)) = [MsgDisclaimer; MsgUsage c])
   <-> (truthy (getattr ns "target" VNone) = false
        \/ truthy (getattr ns "method" VNone) = false
        \/ (py_eq_str (getattr ns "method" VNone) "mixed" = true
            /\ truthy (getattr ns "attacks" VNone) = false)))
  /\ ((exists c, output (snd (run w args)) = [MsgDisclaimer; MsgUsage c]) ->
      fst (run w args) = 2%Z).
Proof.
  apply usage_error_iff.
  apply (merged_with_file _ _ "config.yaml").
  - reflexivity.
  - discriminate.
  - reflexivity.
  - reflexivity.
  - repeat constructor.
Defined.

(** A method from the file that is none of the parser's choices reaches
    the engine. *)
Example scenario_unchecked_file_method :
  let w := file_world "config.yaml"
             (VDict [(VStr "target", VStr "http://good.com");
                     (VStr "method", VStr "bogus")])
             EngineReturns in
  fst (run w (cli_config "config.yaml")) = 0%Z
  /\ exists e,
       engine_input (snd (run w (cli_config "config.yaml"))) = Some e
       /\ e !! "method" = Some (VStr "bogus").
Proof.
  cbv zeta. split; [vm_compute; reflexivity|].
  eexists. split; vm_compute; reflexivity.
Qed.

(** ** The special attribute names in the file *)

Lemma for_each_app {A} (xs ys : list A) (body : A -> M unit) s :
  for_each (xs ++ ys) body s = (for_each xs body ;; for_each ys body) s.
Proof.
  revert s. induction xs as [|x xs IH]; intros s; [reflexivity|].
  cbn [app for_each]. rewrite !bind_run.
  destruct (body x s) as [[[]|c|e] s1]; [|reflexivity..].
  rewrite IH, bind_run. reflexivity.
Qed.

Lemma copy_loop_raises pre k v post e : forall ns s,
  final_args s = Some ns ->
  plain_keys pre ->
  (forall s', setattr_final k v s' = (Raise e, s')) ->
  for_each (pre ++ (k, v) :: post)
    (fun kv => setattr_final (fst kv) (snd kv)) s
  = (Raise e, with_final_args (file_layer pre ns) s).
Proof.
  intros ns s Hs Hpre Hk.
  rewrite for_each_app, bind_run, (copy_loop_run pre ns s Hs Hpre).
  cbn [for_each fst snd]. rewrite bind_run, Hk. reflexivity.
Qed.

Lemma attributes_of_file_layer items :
  attributes_of items = file_layer items ∅.
Proof. reflexivity. Qed.

(** X17.  A [__dict__] key whose value is a mapping does not become an
    attribute: it replaces every attribute copied from the keys before
    it by the items of that mapping.  The merged namespace is then the
    command line over the later keys of the file over those items, and
    nothing of the earlier keys is left in it. *)
Theorem dict_key_replaces_attributes
  (pre post items : list (value * value)) (args : RawArguments)
  (s : process) :
  plain_keys pre ->
  plain_keys post ->
  exists ns,
    reconcile (VDict (pre ++ (VStr "__dict__", VDict items) :: post)) args s
    = (Ret tt, with_final_args ns s)
    /\ ns = cli_layer (vars args) (file_layer post (attributes_of items))
    /\ (forall k v,
           ns !! k = Some v ->
           ((k, v) ∈ vars args /\ v <> VNone /\ v <> VBool false)
           \/ (VStr k, v) ∈ post
           \/ (VStr k, v) ∈ items).
Proof.
  intros Hpre Hpost.
  exists (cli_layer (vars args) (file_layer post (attributes_of items))).
  split; [|split; [reflexivity|]].
  - unfold reconcile.
    rewrite (bind_ret_run _ _ s tt (with_final_args ∅ s)) by reflexivity.
    unfold copy_file_config.
    rewrite (bind_ret_run _ _ _ tt
               (with_final_args (file_layer post (attributes_of items)) s)).
    + unfold overlay_arguments.
      rewrite (overlay_loop_run _ (file_layer post (attributes_of items)));
        [reflexivity | reflexivity | apply vars_not_special].
    + rewrite (bind_ret_run _ _ (with_final_args ∅ s)
                 (pre ++ (VStr "__dict__", VDict items) :: post)%list
                 (with_final_args ∅ s)) by reflexivity.
      rewrite for_each_app, bind_run.
      rewrite (copy_loop_run pre ∅ (with_final_args ∅ s) eq_refl Hpre).
      cbn [for_each fst snd].
      rewrite (bind_ret_run _ _ _ tt
                 (with_final_args (attributes_of items) s)) by reflexivity.
      rewrite (copy_loop_run post (attributes_of items)
                 (with_final_args (attributes_of items) s) eq_refl Hpost).
      reflexivity.
  - intros k v H. destruct (cli_layer_origin _ _ _ _ H) as [[Hin Ho]|Hf].
    + left. split; [exact Hin|]. apply overrides_spec. exact Ho.
    + right. destruct (file_layer_origin _ _ _ _ Hf) as [Hin|Hi];
        [left; exact Hin|].
      rewrite attributes_of_file_layer in Hi.
      destruct (file_layer_origin _ _ _ _ Hi) as [Hin|He];
        [right; exact Hin|].
      rewrite lookup_empty in He. discriminate.
Qed.

Lemma dict_key_replaces_attributes_witness :
  exists ns,
    reconcile
      (VDict ([(VStr "stealth", VBool true)]
              ++ (VStr "__dict__", VDict []) :: []))
      (cli "http://good.com" HttpFlood) initial
    = (Ret tt, with_final_args ns initial)
    /\ ns = cli_layer (vars (cli "http://good.com" HttpFlood))
              (file_layer [] (attributes_of []))
    /\ (forall k v,
           ns !! k = Some v ->
           ((k, v) ∈ vars (cli "http://good.com" HttpFlood)
            /\ v <> VNone /\ v <> VBool false)
           \/ (VStr k, v) ∈ []
           \/ (VStr k, v) ∈ []).
Proof.
  apply dict_key_replaces_attributes; repeat constructor.
Defined.

(** With [stealth: true] and then [__dict__: {}] in the file and no
    [--stealth] on the command line, the engine is given
    [stealth = False]. *)
Example scenario_dict_key_wipes_stealth :
  let w := file_world "config.yaml"
             (VDict [(VStr "stealth", VBool true);
                     (VStr "__dict__", VDict [])])
             EngineReturns in
  let args :=
    {| target := Some "http://good.com"; method := Some HttpFlood;
       config := Some "config.yaml"; attacks := None; connections := None;
       duration := None; confirm_target := None; stealth := false |} in
  exists e,
    engine_input (snd (run w args)) = Some e
    /\ e !! "stealth" = Some (VBool false).
Proof.
  cbv zeta. eexists. split; vm_compute; reflexivity.
Qed.

(** X18.  A [__class__] key, a [__weakref__] key and a [__dict__] key
    whose value is not a mapping cannot be set on the namespace: the
    copy of lines 85-86 stops there, with [TypeError] for [__class__]
    and [__dict__] and [AttributeError] for [__weakref__], after the
    plain keys before it have been copied and before the command line
    is laid over. *)
Theorem special_key_stops_the_merge
  (pre post : list (value * value)) (k : string) (v : value) (e : exn)
  (args : RawArguments) (s : process) :
  plain_keys pre ->
  (k = "__class__" /\ e = TypeError)
  \/ (k = "__weakref__" /\ e = AttributeError)
  \/ (k = "__dict__" /\ e = TypeError /\ forall items, v <> VDict items) ->
  reconcile (VDict (pre ++ (VStr k, v) :: post)) args s
  = (Raise e, with_final_args (file_layer pre ∅) s).
Proof.
  intros Hpre Hk.
  assert (Hraise : forall s', setattr_final (VStr k) v s' = (Raise e, s')).
  { intros s'. destruct Hk as [[-> ->] | [[-> ->] | (-> & -> & Hv)]];
      try reflexivity.
    unfold setattr_final. cbn [String.eqb Ascii.eqb Bool.eqb].
    destruct v as [| | | | |items]; try reflexivity.
    destruct (Hv items). reflexivity. }
  unfold reconcile.
  rewrite (bind_ret_run _ _ s tt (with_final_args ∅ s)) by reflexivity.
  rewrite bind_run. unfold copy_file_config.
  rewrite (bind_ret_run _ _ (with_final_args ∅ s)
             (pre ++ (VStr k, v) :: post)%list (with_final_args ∅ s))
    by reflexivity.
  rewrite (copy_loop_raises pre (VStr k) v post e ∅ (with_final_args ∅ s)
             eq_refl Hpre Hraise).
  reflexivity.
Qed.

Lemma special_key_stops_the_merge_witness :
  reconcile
    (VDict ([(VStr "target", VStr "http://good.com")]
            ++ (VStr "__class__", VStr "Namespace")
            :: [(VStr "method", VStr "http-flood")]))
    no_arguments initial
  = (Raise TypeError,
     with_final_args
       (file_layer [(VStr "target", VStr "http://good.com")] ∅) initial).
Proof.
  apply special_key_stops_the_merge.
  - repeat constructor.
  - left. split; reflexivity.
Defined.
